(** * EvoScholar: the self-improving research agent of [src/evo_scholar.py]

    A shallow embedding of [SelfImprovingResearchAgent] and the properties
    of its evaluator, its reply extraction and its driver loop.

    - Python [str] values are sequences of Unicode code points: [list N].
    - Python [int] values are [Z].
    - The two providers (arXiv search, chat completion), the output file and
      the operator's terminal are an explicit world, threaded through a small
      state-and-error monad; an error of a provider, or a text that the file
      or the terminal cannot encode, aborts the run the way an uncaught
      exception does. *)

From Stdlib Require Import ZArith NArith Ascii String DecimalString DecimalZ Lia Bool.
From stdpp Require Import base list gmap.

Local Open Scope Z_scope.

(** ** Python strings *)

Module PyStr.

Abbreviation str := (list N).

(** A literal of the source, as its code points. *)
Definition py (s : string) : str := map N_of_ascii (list_ascii_of_string s).
Arguments py s%_string.

(** The newline character, written [\n] in the source. *)
Definition nl : str := [10%N].

(** [str.isspace] on one character: CPython's table of whitespace code
    points, which [str.split()] and [str.strip()] both use. *)
Definition isspace (c : N) : bool :=
  ((9 <=? c) && (c <=? 13) || (28 <=? c) && (c <=? 32) || (c =? 133) || (c =? 160)
   || (c =? 5760) || (8192 <=? c) && (c <=? 8202) || (c =? 8232) || (c =? 8233)
   || (c =? 8239) || (c =? 8287) || (c =? 12288))%N.

(** [s.split()]: the maximal runs of non-whitespace characters, in order.
    [tok] holds the characters of the run being read. *)
Fixpoint split_go (tok s : str) : list str :=
  match s with
  | [] => match tok with [] => [] | _ => [tok] end
  | c :: s' =>
      if isspace c
      then match tok with [] => split_go [] s' | _ => tok :: split_go [] s' end
      else split_go (tok ++ [c]) s'
  end.

Definition split (s : str) : list str := split_go [] s.

(** [s.lstrip()], [s.rstrip()] and [s.strip()]. *)
Fixpoint lstrip (s : str) : str :=
  match s with
  | [] => []
  | c :: s' => if isspace c then lstrip s' else s
  end.

Definition rstrip (s : str) : str := rev (lstrip (rev s)).

Definition strip (s : str) : str := rstrip (lstrip s).

(** [s.startswith(p)]. *)
Fixpoint startswith (p s : str) : bool :=
  match p, s with
  | [], _ => true
  | _ :: _, [] => false
  | a :: p', b :: s' => (a =? b)%N && startswith p' s'
  end.

(** [needle in hay]: plain substring test. *)
Fixpoint contains (needle hay : str) : bool :=
  startswith needle hay ||
  match hay with
  | [] => false
  | _ :: hay' => contains needle hay'
  end.

(** [sep.join(l)]. *)
Fixpoint join (sep : str) (l : list str) : str :=
  match l with
  | [] => []
  | [x] => x
  | x :: l' => x ++ sep ++ join sep l'
  end.

(** [str(n)] for an [int], as an f-string field renders it. *)
Definition show_Z (n : Z) : str := py (NilEmpty.string_of_int (Z.to_int n)).

End PyStr.

Import PyStr.

(** ** The evaluator *)

Definition required_sections : list str :=
  [ py "Title:"; py "Abstract:"; py "Introduction:";
    py "Proposed Method:"; py "Conclusion:" ].

(** [len(paper_text.split())]. *)
Definition word_count (paper_text : str) : Z :=
  Z.of_nat (length (split paper_text)).

(** [[sec for sec in required_sections if sec not in paper_text]]. *)
Definition missing_sections (paper_text : str) : list str :=
  List.filter (fun sec => negb (contains sec paper_text)) required_sections.

Definition evaluate_paper (paper_text : str) (max_words : Z) : str :=
  let word_count := word_count paper_text in
  let feedback : str := [] in
  let feedback :=
    if max_words <? word_count
    then feedback ++ py "Paper is too long by " ++ show_Z (word_count - max_words)
                  ++ py " words. "
    else feedback in
  let missing_sections := missing_sections paper_text in
  let feedback :=
    match missing_sections with
    | [] => feedback
    | _ :: _ => feedback ++ py "Missing sections: " ++ join (py ", ") missing_sections
                         ++ py ". "
    end in
  let feedback :=
    match feedback with
    | [] => py "Success! Paper length is " ++ show_Z word_count ++ py " words."
    | _ :: _ => feedback
    end in
  strip feedback.

(** The substring relation that [in] decides. *)
Definition substring (needle hay : str) : Prop :=
  exists pre post, hay = pre ++ needle ++ post.

(** The three messages of the evaluator, as they reach the caller. *)
Definition success_msg (words : Z) : str :=
  py "Success! Paper length is " ++ show_Z words ++ py " words.".

Definition too_long_msg (over : Z) : str :=
  py "Paper is too long by " ++ show_Z over ++ py " words.".

Definition missing_msg (missing : list str) : str :=
  py "Missing sections: " ++ join (py ", ") missing ++ py ".".

(** ** Regular expressions: the fragment [extract_text] uses *)

Module Re.

(** The constructs of the pattern [```(?:python)?\n(.*?)\n```] under
    [re.DOTALL]. *)
Inductive regex :=
| Lit (l : str)            (* literal characters *)
| Opt (r : regex)          (* [(?:r)?], greedy: [r] is tried before skipping it *)
| Group_any_lazy           (* [(.*?)], group 1; [.] matches every character *)
| Seq (r1 r2 : regex).     (* [r1] followed by [r2] *)

Section Matcher.

Context {A : Type}.

(** [(.*?)] followed by the continuation [k]: the shortest capture is
    tried first, then one more character is taken. *)
Fixpoint any_lazy (k : str -> str -> option A) (captured s : str) : option A :=
  match k captured s with
  | Some a => Some a
  | None =>
      match s with
      | [] => None
      | c :: s' => any_lazy k (captured ++ [c]) s'
      end
  end.

(** Backtracking match of [r] at the head of [s]; [g] is group 1 so far and
    [k] matches what follows [r]. The first success in the engine's order
    of tries is the answer. *)
Fixpoint match_re (r : regex) (s : str) (g : option str)
    (k : str -> option str -> option A) : option A :=
  match r with
  | Lit l => if startswith l s then k (drop (length l) s) g else None
  | Opt r' =>
      match match_re r' s g k with
      | Some a => Some a
      | None => k s g
      end
  | Group_any_lazy => any_lazy (fun captured rest => k rest (Some captured)) [] s
  | Seq r1 r2 => match_re r1 s g (fun rest g' => match_re r2 rest g' k)
  end.

End Matcher.

(** [re.search(r, s)]: the match at the leftmost position that has one;
    the result is its group 1 ([None] inside when the group took no part). *)
Fixpoint search (r : regex) (s : str) : option (option str) :=
  match match_re r s None (fun _ g => Some g) with
  | Some g => Some g
  | None =>
      match s with
      | [] => None
      | _ :: s' => search r s'
      end
  end.

End Re.

Definition fence : str := py "```".

(** [r"```(?:python)?\n(.*?)\n```"] *)
Definition fence_re : Re.regex :=
  Re.Seq (Re.Lit fence)
    (Re.Seq (Re.Opt (Re.Lit (py "python")))
       (Re.Seq (Re.Lit nl)
          (Re.Seq Re.Group_any_lazy (Re.Lit (nl ++ fence))))).

Definition extract_text (text : str) : str :=
  match Re.search fence_re text with
  | Some (Some code_block) => strip code_block
  | Some None => strip text   (* not reached: group 1 is part of every match *)
  | None => strip text
  end.

(** The closing delimiter of the pattern, [\n```]. *)
Definition close : str := nl ++ fence.

(** One try of the pattern at the head of [s]. *)
Definition match_fence (s : str) : option (option str) :=
  Re.match_re fence_re s None (fun _ g => Some g).

(** What follows group 1 in the pattern. *)
Definition after_group (captured rest : str) : option (option str) :=
  if startswith close rest then Some (Some captured) else None.

(** A text holds a block the pattern can match: an opening fence, the
    optional tag, a newline, any text, a newline and a fence. *)
Definition has_block (s : str) : Prop :=
  exists pre tag body post,
    s = pre ++ fence ++ tag ++ nl ++ body ++ close ++ post
    /\ (tag = [] \/ tag = py "python").

(** The reply [pre\n```python\nBODY\n```\npost]. *)
Definition fenced_reply (pre body post : str) : str :=
  pre ++ nl ++ fence ++ py "python" ++ nl ++ body ++ nl ++ fence ++ nl ++ post.

(** The fences of [fenced_reply pre body post] are its only ones. *)
Definition one_fenced_block (pre body post : str) : Prop :=
  ~ substring fence pre /\ ~ substring fence body /\ ~ substring fence post.

(** ** The world the agent runs in *)

(** What an uncaught exception carries to the top level. *)
Inductive error :=
| ProviderError (what : str)   (* raised inside a provider call, passed on unmodified *)
| IndexError                   (* [response.choices[0]] on an empty list *)
| AttributeError               (* [self.client] is [None] *)
| UnicodeEncodeError.          (* a text that the file or the terminal cannot encode *)

Inductive result (A : Type) :=
| Ok (a : A)
| Raise (e : error).
Arguments Ok {A} a.
Arguments Raise {A} e.

(** One entry of [client.results(search)]. *)
Record arxiv_result := { r_title : str; r_summary : str; r_entry_id : str }.

(** The dictionaries [fetch_latest_papers] builds, with their three keys. *)
Record paper_summary := { title : str; abstract : str; link : str }.

Record message := { role : str; content : str }.

(** What surrounds the agent: the two providers and the encodings of the
    output file and of the terminal. The chat provider may answer the same
    request differently each time: its answer depends on how many requests
    came before. An answer is the list of [choices[k].message.content].
    [file_codec] and [terminal_codec] tell which characters beyond ASCII the
    encoding of [open(file_name, "w")] and of [sys.stdout] can encode; both
    are the locale's encoding unless the operator chose otherwise, and
    Python supports only encodings that hold ASCII. *)
Record providers := {
  arxiv_results : str -> Z -> result (list arxiv_result);
  chat_create : nat -> str -> list message -> result (list str);
  file_codec : N -> bool;
  terminal_codec : N -> bool
}.

(** [s.encode(codec)] does not raise: every character of [s] is ASCII or
    known to the codec. *)
Definition encodable (codec : N -> bool) (s : str) : bool :=
  forallb (fun c => (c <? 128)%N || codec c) s.

(** UTF-8: every code point but the surrogates. *)
Definition utf8 (c : N) : bool :=
  negb ((55296 <=? c) && (c <=? 57343))%N && (c <=? 1114111)%N.

(** Everything the agent does to the outside, in order. [EvGenerate]
    is a ghost event: it marks each entry into [generate_paper]. [EvWrite]
    tells what the file holds from then on: the data, or nothing when the
    data could not be encoded. *)
Inductive event :=
| EvSearch (query : str) (max_results : Z)
| EvChat (model : str) (messages : list message)
| EvWrite (file_name data : str)
| EvPrint (line : str)
| EvGenerate (prompt : str).

Record world := {
  files : gmap str str;   (* content of each file, by name *)
  trace : list event      (* the events so far, oldest first *)
}.

Definition is_chat (e : event) : bool :=
  match e with EvChat _ _ => true | _ => false end.

(** Number of chat requests already sent. *)
Definition chat_requests (t : list event) : nat := length (List.filter is_chat t).

(** *** A state-and-error monad over the world *)

Definition M (A : Type) : Type := world -> result A * world.

Definition ret {A} (a : A) : M A := fun w => (Ok a, w).

Definition bind {A B} (m : M A) (f : A -> M B) : M B :=
  fun w =>
    match m w with
    | (Ok a, w') => f a w'
    | (Raise e, w') => (Raise e, w')
    end.

Declare Scope monad_scope.
Delimit Scope monad_scope with monad.
Notation "x <- m ;; f" := (bind m (fun x => f))
  (at level 100, m at next level, right associativity) : monad_scope.
Notation "m ;; f" := (bind m (fun _ => f))
  (at level 100, right associativity) : monad_scope.
Local Open Scope monad_scope.

Definition emit (e : event) : M unit :=
  fun w => (Ok tt, {| files := files w; trace := trace w ++ [e] |}).

Definition lift {A} (r : result A) : M A := fun w => (r, w).


(** ** The agent *)

Record openai_client := { api_key : option str; base_url : str }.

Record agent := {
  model : str;
  iterations : Z;
  test_mode : bool;
  client : option openai_client
}.

(** [__init__]; [xai_api_key] is [os.getenv("XAI_API_KEY")]. *)
Definition init (model : str) (iterations : Z) (test_mode : bool)
    (xai_api_key : option str) : agent :=
  {| model := model;
     iterations := iterations;
     test_mode := test_mode;
     client :=
       if negb test_mode
       then Some {| api_key := xai_api_key; base_url := py "https://api.x.ai/v1" |}
       else None |}.

Definition dummy_paper : str :=
  py "Title: Dummy Research Paper" ++ nl
  ++ py "Abstract: This is a dummy abstract for testing purposes." ++ nl
  ++ py "Introduction: An introduction to the dummy paper." ++ nl
  ++ py "Proposed Method: A dummy method is proposed." ++ nl
  ++ py "Conclusion: The paper concludes with dummy insights.".

Section Agent.

Variable env : providers.

(** [with open(file_name, "w") as f: f.write(data)]: opening empties the
    file, then the file holds [data] and nothing else. When [data] cannot be
    encoded, [f.write] raises and the file stays empty. Failures of the file
    system itself (no space, no permission) are outside the model. *)
Definition write_file (file_name data : str) : M unit :=
  fun w =>
    if encodable (file_codec env) data
    then (Ok tt, {| files := <[file_name := data]> (files w);
                    trace := trace w ++ [EvWrite file_name data] |})
    else (Raise UnicodeEncodeError,
          {| files := <[file_name := []]> (files w);
             trace := trace w ++ [EvWrite file_name []] |}).

(** [print(line)]: nothing reaches the terminal when [line] cannot be
    encoded. *)
Definition print (line : str) : M unit :=
  if encodable (terminal_codec env) line
  then emit (EvPrint line)
  else lift (Raise UnicodeEncodeError).

(** [arxiv.Client().results(arxiv.Search(query, max_results, SubmittedDate))] *)
Definition arxiv_client_results (query : str) (max_results : Z)
    : M (list arxiv_result) :=
  emit (EvSearch query max_results) ;;
  lift (arxiv_results env query max_results).

(** [client.chat.completions.create(model=..., messages=...)] *)
Definition chat_completions_create (model : str) (messages : list message)
    : M (list str) :=
  fun w =>
    bind (emit (EvChat model messages))
         (fun _ => lift (chat_create env (chat_requests (trace w)) model messages)) w.

(** The first line records the call itself; the rest is the method. *)
Definition generate_paper (self : agent) (prompt : str) : M str :=
  emit (EvGenerate prompt) ;;
  if test_mode self then ret dummy_paper
  else
    c <- lift (match client self with
               | Some c => Ok c
               | None => Raise AttributeError
               end) ;;
    choices <- chat_completions_create (model self)
      [ {| role := py "system"; content := py "You are an AI research paper generator." |};
        {| role := py "user"; content := prompt |} ] ;;
    paper <- lift (match choices with
                   | first :: _ => Ok first
                   | [] => Raise IndexError
                   end) ;;
    ret (extract_text paper).

Definition refine_paper (self : agent) (paper_text feedback : str) : M str :=
  let prompt :=
    py "Refine the following research paper based on this feedback:" ++ nl
    ++ feedback ++ nl ++ nl
    ++ py "Paper:" ++ nl ++ paper_text ++ nl ++ nl
    ++ py "Ensure the paper is concise (under 500 words), introduces a novel interdisciplinary concept "
    ++ py "by blending ideas from different STEM fields, and includes the sections: Title, Abstract, "
    ++ py "Introduction, Proposed Method, and Conclusion." in
  generate_paper self prompt.

(** [summary.replace("\n", " ")] *)
Definition newlines_to_spaces (s : str) : str :=
  map (fun c => if (c =? 10)%N then 32%N else c) s.

Definition default_query : str := py "interdisciplinary research AI biology physics".

(** The dictionary appended for one result. *)
Definition summary_of (r : arxiv_result) : paper_summary :=
  {| title := r_title r;
     abstract := newlines_to_spaces (r_summary r);
     link := r_entry_id r |}.

Definition fetch_latest_papers (self : agent) (max_results : Z) (query : str)
    : M (list paper_summary) :=
  results <- arxiv_client_results query max_results ;;
  ret (map summary_of results).

Definition file_name : str := py "generated_paper.txt".

(** [f"Iteration {i+1} feedback: {feedback}"] *)
Definition feedback_line (i : nat) (feedback : str) : str :=
  py "Iteration " ++ show_Z (Z.of_nat i + 1) ++ py " feedback: " ++ feedback.

(** The body of the [for] loop of [run]. *)
Definition iteration (self : agent) (i : nat) (paper_text : str) : M str :=
  write_file file_name paper_text ;;
  let feedback := evaluate_paper paper_text 500 in
  print (feedback_line i feedback) ;;
  refine_paper self paper_text feedback.

(** [for i in indices: paper_text = body(i, paper_text)] *)
Fixpoint for_each (body : nat -> str -> M str) (indices : list nat)
    (paper_text : str) : M str :=
  match indices with
  | [] => ret paper_text
  | i :: rest => paper_text' <- body i paper_text ;; for_each body rest paper_text'
  end.

(** [range(n)] for an [int] [n]: empty when [n <= 0]. *)
Definition range (n : Z) : list nat := seq 0 (Z.to_nat n).

Definition base_prompt (latest_papers : list paper_summary) : str :=
  let paper_summaries :=
    join nl (map (fun paper => py "Title: " ++ title paper ++ nl
                               ++ py "Abstract: " ++ abstract paper) latest_papers) in
  py "Generate a new interdisciplinary research paper inspired by the following arXiv paper summaries:" ++ nl
  ++ paper_summaries ++ nl ++ nl
  ++ py "Your paper should be concise (under 500 words) and include the sections: Title, Abstract, "
  ++ py "Introduction, Proposed Method, and Conclusion. Propose a novel concept by blending ideas from different STEM fields.".

(** [run]; [fetch_latest_papers()] is called with its default arguments. *)
Definition run (self : agent) : M unit :=
  latest_papers <- fetch_latest_papers self 5 default_query ;;
  paper_text <- generate_paper self (base_prompt latest_papers) ;;
  paper_text <- for_each (iteration self) (range (iterations self)) paper_text ;;
  print (nl ++ py "Final Version of the Paper:") ;;
  print paper_text ;;
  write_file file_name paper_text.

End Agent.

(** *** Reading a trace *)

(** The files after the events of [t], starting from [m]: each write
    replaces the whole content of its file. *)
Definition replay (t : list event) (m : gmap str str) : gmap str str :=
  fold_left (fun m e =>
               match e with
               | EvWrite f d => <[f := d]> m
               | _ => m
               end) t m.

Inductive kind := KSearch | KChat | KWrite | KPrint | KGenerate.

Global Instance kind_eq_dec : EqDecision kind.
Proof. solve_decision. Defined.

Definition kind_of (e : event) : kind :=
  match e with
  | EvSearch _ _ => KSearch
  | EvChat _ _ => KChat
  | EvWrite _ _ => KWrite
  | EvPrint _ => KPrint
  | EvGenerate _ => KGenerate
  end.

(** Number of times [k] occurs in [ks]. *)
Definition occurrences (k : kind) (ks : list kind) : nat :=
  length (List.filter (fun x => bool_decide (x = k)) ks).

(** Number of events of kind [k] in [t]. *)
Definition count (k : kind) (t : list event) : Z :=
  Z.of_nat (occurrences k (map kind_of t)).

(** [m] succeeds in [w] with value [a], after the events [t] and nothing
    else. *)
Definition runs {A} (m : M A) (w : world) (a : A) (t : list event) : Prop :=
  m w = (Ok a, {| files := replay t (files w); trace := trace w ++ t |}).

(** *** The steps of the driver, as the specification lists them *)

(** One generator call: the call and, outside test mode, its request. *)
Definition gen_kinds (test_mode : bool) : list kind :=
  if test_mode then [KGenerate] else [KGenerate; KChat].

(** One iteration: persist, print the feedback, refine. *)
Definition iteration_kinds (test_mode : bool) : list kind :=
  [KWrite; KPrint] ++ gen_kinds test_mode.

Fixpoint times (n : nat) (ks : list kind) : list kind :=
  match n with
  | O => []
  | S n' => ks ++ times n' ks
  end.

(** Start, [n] iterations, end. *)
Definition run_kinds (test_mode : bool) (n : nat) : list kind :=
  [KSearch] ++ gen_kinds test_mode ++ times n (iteration_kinds test_mode)
  ++ [KPrint; KPrint; KWrite].

(** The events of iterations [i], [i+1], ..., [i+n-1] of the loop, from the
    draft [d] to the draft [d']: each iteration writes its draft, prints the
    feedback on that draft and calls the generator. *)
Inductive loop_events (test_mode : bool) : nat -> nat -> str -> list event -> str -> Prop :=
| loop_done i d : loop_events test_mode i 0 d [] d
| loop_step i n d g d' t d'' :
    map kind_of g = gen_kinds test_mode ->
    loop_events test_mode (S i) n d' t d'' ->
    loop_events test_mode i (S n) d
      ([EvWrite file_name d; EvPrint (feedback_line i (evaluate_paper d 500))] ++ g ++ t) d''.

(** The providers answer every request they get. *)
Definition search_answers (env : providers) : Prop :=
  forall query max_results, exists results,
    arxiv_results env query max_results = Ok results.

Definition chat_answers (env : providers) : Prop :=
  forall n model messages, exists first others,
    chat_create env n model messages = Ok (first :: others).

(** What a generator call needs in order to return. *)
Definition can_generate (env : providers) (self : agent) : Prop :=
  test_mode self = true \/ (is_Some (client self) /\ chat_answers env).

(** The two messages of a chat request. *)
Definition chat_messages (prompt : str) : list message :=
  [ {| role := py "system"; content := py "You are an AI research paper generator." |};
    {| role := py "user"; content := prompt |} ].

(** The line printed before the final draft. *)
Definition final_header : str := nl ++ py "Final Version of the Paper:".

(** The events of a run whose provider calls return, [d] being its final
    draft. *)
Definition run_trace (tm : bool) (n : nat) (t : list event) (d : str) : Prop :=
  exists g d0 loop,
    t = [EvSearch default_query 5] ++ g ++ loop
        ++ [EvPrint final_header; EvPrint d; EvWrite file_name d]
    /\ map kind_of g = gen_kinds tm
    /\ loop_events tm 0 n d0 loop d.

(** The two texts of the evaluator's documented scenarios. *)
Definition five_sections : str :=
  py "Title: A" ++ nl ++ py "Abstract: B" ++ nl ++ py "Introduction: C" ++ nl
  ++ py "Proposed Method: D" ++ nl ++ py "Conclusion: E".

Definition two_sections : str := py "Title: A" ++ nl ++ py "Abstract: B".

(** A world with nothing in it and providers for the examples. *)
Definition empty_world : world := {| files := ∅; trace := [] |}.

Definition offline : providers :=
  {| arxiv_results := fun _ _ => Raise (ProviderError (py "connection refused"));
     chat_create := fun _ _ _ => Raise (ProviderError (py "connection refused"));
     file_codec := utf8;
     terminal_codec := utf8 |}.

(** Only the search provider can be reached. *)
Definition search_only (results : list arxiv_result) : providers :=
  {| arxiv_results := fun _ _ => Ok results;
     chat_create := fun _ _ _ => Raise (ProviderError (py "connection refused"));
     file_codec := utf8;
     terminal_codec := utf8 |}.

Definition one_paper : arxiv_result :=
  {| r_title := py "On Things";
     r_summary := py "First line" ++ nl ++ py "second line";
     r_entry_id := py "http://arxiv.org/abs/0000.00000" |}.

(** A chat provider that answers every request with a fenced reply quoting
    how many requests came before, so no draft meets the evaluator's rules. *)
Definition echo_reply (n : nat) : str :=
  py "Here it is:" ++ nl ++ py "```" ++ nl ++ py "Draft " ++ show_Z (Z.of_nat n) ++ nl
  ++ py "```" ++ nl.

(** A chat provider whose reply holds a lone surrogate. *)
Definition garbled : providers :=
  {| arxiv_results := fun _ _ => Ok [one_paper];
     chat_create := fun _ _ _ => Ok [py "ok " ++ [55296%N] ++ py " text"];
     file_codec := utf8;
     terminal_codec := utf8 |}.

Definition online : providers :=
  {| arxiv_results := fun _ _ => Ok [one_paper];
     chat_create := fun n _ _ => Ok [echo_reply n];
     file_codec := utf8;
     terminal_codec := utf8 |}.

(** ** Notions used by the further properties *)

(** No character of [s] is [c]. *)
Definition lacks (c : N) (s : str) : bool := forallb (fun x => negb (x =? c)%N) s.

(** A text made of whitespace only (the empty text is one). *)
Definition blank (s : str) : bool := forallb isspace s.

(** A word: not empty and free of whitespace. *)
Definition word (s : str) : Prop :=
  s <> [] /\ forallb (fun c => negb (isspace c)) s = true.

(** An event that leaves every file but the output file alone. *)
Definition writes_output (e : event) : Prop :=
  match e with
  | EvWrite f _ => f = file_name
  | _ => True
  end.

(** Whatever the providers do, [m] extends the world by events that write to
    the output file only; their kinds are [ks] when [m] returns and a
    beginning of [ks] when it raises. *)
Definition steps {A} (m : M A) (ks : list kind) : Prop :=
  forall w, exists t,
    snd (m w) = {| files := replay t (files w); trace := trace w ++ t |}
    /\ Forall writes_output t
    /\ match fst (m w) with
       | Ok _ => map kind_of t = ks
       | Raise _ => map kind_of t `prefix_of` ks
       end.

(** The prompt [refine_paper] builds. *)
Definition refine_prompt (paper_text feedback : str) : str :=
  py "Refine the following research paper based on this feedback:" ++ nl
  ++ feedback ++ nl ++ nl
  ++ py "Paper:" ++ nl ++ paper_text ++ nl ++ nl
  ++ py "Ensure the paper is concise (under 500 words), introduces a novel interdisciplinary concept "
  ++ py "by blending ideas from different STEM fields, and includes the sections: Title, Abstract, "
  ++ py "Introduction, Proposed Method, and Conclusion.".

(** The events of a run in test mode once the search is answered: the dummy
    paper is written, its evaluation printed, the generator called. *)
Definition test_iteration (i : nat) : list event :=
  [ EvWrite file_name dummy_paper;
    EvPrint (feedback_line i (evaluate_paper dummy_paper 500));
    EvGenerate (refine_prompt dummy_paper (evaluate_paper dummy_paper 500)) ].

Definition test_run_events (results : list arxiv_result) (n : nat) : list event :=
  [ EvSearch default_query 5; EvGenerate (base_prompt (map summary_of results)) ]
  ++ concat (map test_iteration (seq 0 n))
  ++ [ EvPrint final_header; EvPrint dummy_paper; EvWrite file_name dummy_paper ].

(** A text that can be written to the output file and printed. *)
Definition writable (env : providers) (s : str) : Prop :=
  encodable (file_codec env) s = true /\ encodable (terminal_codec env) s = true.

(** A text of ASCII characters only: every encoding can encode it. *)
Definition ascii_only (s : str) : bool := forallb (fun c => (c <? 128)%N) s.

(** Every reply of the chat provider can be encoded for the output file and
    for the terminal. *)
Definition replies_encodable (env : providers) : Prop :=
  forall n model messages first others,
    chat_create env n model messages = Ok (first :: others) ->
    encodable (file_codec env) first = true
    /\ encodable (terminal_codec env) first = true.

(** What the drafts of an agent need in order to be written and printed:
    test mode, whose only draft is the dummy paper, or replies that can be
    encoded. *)
Definition can_write (env : providers) (self : agent) : Prop :=
  test_mode self = true \/ replies_encodable env.

(** Every line printed in [t] is the feedback on the draft written just
    before it, numbered from [i] on. *)
Definition feedback_printed (i : nat) (t : list event) : Prop :=
  forall pre line post,
    t = pre ++ EvPrint line :: post ->
    exists pre' d,
      pre = pre' ++ [EvWrite file_name d]
      /\ line = feedback_line (i + occurrences KPrint (map kind_of pre))
                              (evaluate_paper d 500).

(** Each of the first [n] lines printed in [t] is the feedback on the draft
    written just before it, numbered by its rank. *)
Definition first_feedback (n : nat) (t : list event) : Prop :=
  forall pre line post,
    t = pre ++ EvPrint line :: post ->
    (occurrences KPrint (map kind_of pre) < n)%nat ->
    exists pre' d,
      pre = pre' ++ [EvWrite file_name d]
      /\ line = feedback_line (occurrences KPrint (map kind_of pre))
                              (evaluate_paper d 500).

(** The world [w] after the events [t]. *)
Definition extend (w : world) (t : list event) : world :=
  {| files := replay t (files w); trace := trace w ++ t |}.

(** ** Facts about the string operations *)

Section StringFacts.

Implicit Types s t p needle hay : str.

Lemma startswith_spec p s : startswith p s = true <-> exists post, s = p ++ post.
Proof.
  revert s; induction p as [|a p IH]; intros s; simpl.
  - split; eauto.
  - destruct s as [|b s]; simpl.
    + split; [discriminate | intros [post H]; discriminate].
    + rewrite andb_true_iff, N.eqb_eq, IH. split.
      * intros [-> [post ->]]. eauto.
      * intros [post H]. injection H as -> ->. eauto.
Qed.

Lemma contains_spec needle hay : contains needle hay = true <-> substring needle hay.
Proof.
  unfold substring. induction hay as [|c hay IH]; simpl.
  - rewrite orb_false_r, startswith_spec. split.
    + intros [post H]. exists [], post. exact H.
    + intros [pre [post H]]. destruct pre; simpl in H; [eauto | discriminate].
  - rewrite orb_true_iff, startswith_spec, IH. split.
    + intros [[post H] | [pre [post H]]].
      * exists [], post. exact H.
      * exists (c :: pre), post. simpl. now rewrite H.
    + intros [pre [post H]]. destruct pre as [|c' pre]; simpl in H.
      * left. eauto.
      * right. injection H as -> ->. eauto.
Qed.

Lemma contains_false needle hay :
  contains needle hay = false <-> ~ substring needle hay.
Proof.
  rewrite <- contains_spec. destruct (contains needle hay); split; congruence.
Qed.

Lemma substring_refl s : substring s s.
Proof. exists [], []. simpl. now rewrite app_nil_r. Qed.

Lemma substring_trans s t u : substring s t -> substring t u -> substring s u.
Proof.
  intros [a [b ->]] [c [d ->]]. exists (c ++ a), (b ++ d).
  now rewrite <- !app_assoc.
Qed.

Lemma substring_app_l s t u : substring s t -> substring s (u ++ t).
Proof. intros [a [b ->]]. exists (u ++ a), b. now rewrite <- app_assoc. Qed.

Lemma substring_app_r s t u : substring s t -> substring s (t ++ u).
Proof. intros [a [b ->]]. exists a, (b ++ u). now rewrite <- !app_assoc. Qed.

Lemma py_inj (a b : string) : py a = py b -> a = b.
Proof.
  unfold py. intros H.
  rewrite <- (string_of_list_ascii_of_string a), <- (string_of_list_ascii_of_string b).
  f_equal. revert H. generalize (list_ascii_of_string b) as lb.
  induction (list_ascii_of_string a) as [|x la IH]; intros [|y lb] H;
    try discriminate; [reflexivity|].
  cbn [map] in H. injection H as Hxy H. f_equal; [|now apply IH].
  rewrite <- (ascii_N_embedding x), <- (ascii_N_embedding y). now rewrite Hxy.
Qed.

(** Different integers are rendered differently. *)
Lemma show_Z_inj (a b : Z) : show_Z a = show_Z b -> a = b.
Proof.
  unfold show_Z. intros H. apply py_inj in H.
  apply (f_equal NilEmpty.int_of_string) in H. rewrite !NilEmpty.isi in H.
  injection H as H. rewrite <- (DecimalZ.of_to a), <- (DecimalZ.of_to b).
  now rewrite H.
Qed.

(** *** Stripping *)

Lemma lstrip_app_nonspace s c :
  isspace c = false -> lstrip (s ++ [c]) = lstrip s ++ [c].
Proof.
  intros Hc. induction s as [|a s IH]; simpl.
  - now rewrite Hc.
  - destruct (isspace a); [exact IH | reflexivity].
Qed.

Lemma lstrip_app_space s c : isspace c = true -> lstrip (c :: s) = lstrip s.
Proof. intros Hc. simpl. now rewrite Hc. Qed.

Lemma rstrip_snoc_nonspace s c : isspace c = false -> rstrip (s ++ [c]) = s ++ [c].
Proof.
  intros Hc. unfold rstrip. rewrite rev_app_distr. simpl. rewrite Hc.
  simpl. now rewrite rev_involutive.
Qed.

Lemma rstrip_snoc_space s c : isspace c = true -> rstrip (s ++ [c]) = rstrip s.
Proof.
  intros Hc. unfold rstrip. rewrite rev_app_distr. simpl. now rewrite Hc.
Qed.

Lemma rstrip_cons_nonspace c s :
  isspace c = false -> exists s', rstrip (c :: s) = c :: s'.
Proof.
  intros Hc. unfold rstrip. simpl rev. rewrite lstrip_app_nonspace by exact Hc.
  rewrite rev_app_distr. simpl. eauto.
Qed.

Lemma lstrip_idem s : lstrip (lstrip s) = lstrip s.
Proof.
  induction s as [|c s IH]; simpl; [reflexivity|].
  destruct (isspace c) eqn:Hc; [exact IH | simpl; now rewrite Hc].
Qed.

Lemma rstrip_idem s : rstrip (rstrip s) = rstrip s.
Proof. unfold rstrip. now rewrite rev_involutive, lstrip_idem. Qed.

Lemma lstrip_head s : lstrip s = [] \/ exists c s', lstrip s = c :: s' /\ isspace c = false.
Proof.
  induction s as [|c s IH]; simpl; [now left|].
  destruct (isspace c) eqn:Hc; [exact IH | right; eauto].
Qed.

(** [strip] is idempotent. *)
Lemma strip_idem s : strip (strip s) = strip s.
Proof.
  unfold strip. destruct (lstrip_head s) as [-> | [c [s' [-> Hc]]]]; [reflexivity|].
  destruct (rstrip_cons_nonspace c s' Hc) as [s'' E]. rewrite E.
  simpl lstrip. rewrite Hc, <- E. apply rstrip_idem.
Qed.

(** A text that starts and ends with a non-blank character is its own
    [strip]; one blank after it is removed. *)
Lemma strip_clean c s d :
  isspace c = false -> isspace d = false -> strip (c :: s ++ [d]) = c :: s ++ [d].
Proof.
  intros Hc Hd. unfold strip. simpl. rewrite Hc.
  change (c :: s ++ [d]) with ((c :: s) ++ [d]). now apply rstrip_snoc_nonspace.
Qed.

Lemma strip_clean_blank c s d b :
  isspace c = false -> isspace d = false -> isspace b = true ->
  strip (c :: s ++ [d; b]) = c :: s ++ [d].
Proof.
  intros Hc Hd Hb. unfold strip. simpl. rewrite Hc.
  replace (c :: s ++ [d; b]) with (((c :: s) ++ [d]) ++ [b])
    by (simpl; now rewrite <- app_assoc).
  rewrite rstrip_snoc_space by exact Hb. now apply rstrip_snoc_nonspace.
Qed.

(** The parts of a stripped text are parts of the text. *)
Lemma lstrip_suffix s : exists pre, s = pre ++ lstrip s.
Proof.
  induction s as [|c s [pre IH]]; simpl.
  - now exists [].
  - destruct (isspace c).
    + exists (c :: pre). simpl. now rewrite <- IH.
    + now exists [].
Qed.

Lemma rstrip_prefix s : exists post, s = rstrip s ++ post.
Proof.
  unfold rstrip. destruct (lstrip_suffix (rev s)) as [pre E].
  exists (rev pre). rewrite <- rev_app_distr, <- E. now rewrite rev_involutive.
Qed.

Lemma strip_substring s : substring (strip s) s.
Proof.
  unfold strip. destruct (lstrip_suffix s) as [pre E].
  destruct (rstrip_prefix (lstrip s)) as [post E'].
  exists pre, post. now rewrite <- E', <- E.
Qed.

End StringFacts.

(** ** What the evaluator returns *)

Section EvaluatorFacts.

Implicit Types t : str.

Lemma strip_frame c a body z d :
  isspace c = false -> isspace d = false ->
  strip ((c :: a) ++ body ++ z ++ [d]) = (c :: a) ++ body ++ z ++ [d].
Proof.
  intros Hc Hd. simpl.
  replace (a ++ body ++ z ++ [d]) with ((a ++ body ++ z) ++ [d])
    by now rewrite <- !app_assoc.
  now apply strip_clean.
Qed.

Lemma strip_frame_blank c a body z d b :
  isspace c = false -> isspace d = false -> isspace b = true ->
  strip ((c :: a) ++ body ++ z ++ [d; b]) = (c :: a) ++ body ++ z ++ [d].
Proof.
  intros Hc Hd Hb. simpl.
  replace (a ++ body ++ z ++ [d; b]) with ((a ++ body ++ z) ++ [d; b])
    by now rewrite <- !app_assoc.
  replace (a ++ body ++ z ++ [d]) with ((a ++ body ++ z) ++ [d])
    by now rewrite <- !app_assoc.
  now apply strip_clean_blank.
Qed.

(** The value of [evaluate_paper], case by case. *)
Lemma evaluate_paper_cases t max_words :
  evaluate_paper t max_words =
  match max_words <? word_count t, missing_sections t with
  | false, [] => success_msg (word_count t)
  | true, [] => too_long_msg (word_count t - max_words)
  | false, _ :: _ => missing_msg (missing_sections t)
  | true, _ :: _ =>
      too_long_msg (word_count t - max_words) ++ py " "
      ++ missing_msg (missing_sections t)
  end.
Proof.
  unfold evaluate_paper, success_msg, too_long_msg, missing_msg.
  destruct (max_words <? word_count t); destruct (missing_sections t) as [|m ms].
  - change (py "Paper is too long by ") with (80%N :: py "aper is too long by ").
    change (py " words. ") with (py " words" ++ [46%N; 32%N]).
    change (py " words.") with (py " words" ++ [46%N]).
    cbn [app]. set (body := show_Z _).
    apply (strip_frame_blank 80%N (py "aper is too long by ") body (py " words") 46%N 32%N);
      reflexivity.
  - set (l := m :: ms). set (over := show_Z _).
    change (py "Paper is too long by ") with (80%N :: py "aper is too long by ").
    change (py ". ") with ([] ++ [46%N; 32%N]).
    change (py ".") with ([] ++ [46%N]).
    cbn [app].
    pose proof (strip_frame_blank 80%N (py "aper is too long by ")
                  (over ++ py " words. " ++ py "Missing sections: " ++ join (py ", ") l)
                  [] 46%N 32%N eq_refl eq_refl eq_refl) as E.
    cbn [app] in E. rewrite <- !app_assoc in E. rewrite <- !app_assoc.
    cbn [app] in *. exact E.
  - change (py "Success! Paper length is ") with (83%N :: py "uccess! Paper length is ").
    change (py " words.") with (py " words" ++ [46%N]).
    cbn [app]. set (body := show_Z _).
    apply (strip_frame 83%N (py "uccess! Paper length is ") body (py " words") 46%N);
      reflexivity.
  - set (l := m :: ms).
    change (py "Missing sections: ") with (77%N :: py "issing sections: ").
    change (py ". ") with ([] ++ [46%N; 32%N]).
    change (py ".") with ([] ++ [46%N]).
    cbn [app].
    apply (strip_frame_blank 77%N (py "issing sections: ") (join (py ", ") l)
             [] 46%N 32%N); reflexivity.
Qed.

(** The markers reported missing are the required markers that do not
    occur in the text, in the order of [required_sections]. *)
Lemma missing_sections_spec t m :
  m ∈ missing_sections t <-> m ∈ required_sections /\ ~ substring m t.
Proof.
  unfold missing_sections. rewrite !list_elem_of_In, filter_In, negb_true_iff.
  now rewrite contains_false.
Qed.

Lemma missing_sections_sublist t : sublist (missing_sections t) required_sections.
Proof.
  unfold missing_sections. generalize required_sections as l.
  induction l as [|x l IH]; simpl; [constructor|].
  destruct (negb (contains x t)); now constructor.
Qed.

Lemma missing_sections_nil t :
  missing_sections t = [] <-> forall m, m ∈ required_sections -> substring m t.
Proof.
  split.
  - intros E m Hm. apply contains_spec.
    destruct (contains m t) eqn:C; [reflexivity|].
    assert (m ∈ missing_sections t) as H
      by (apply missing_sections_spec; split; [exact Hm | now apply contains_false]).
    rewrite E in H. inversion H.
  - intros H. destruct (missing_sections t) as [|m ms] eqn:E; [reflexivity|].
    assert (m ∈ missing_sections t) as Hm by (rewrite E; constructor).
    apply missing_sections_spec in Hm as [Hm Hn]. destruct Hn. now apply H.
Qed.

End EvaluatorFacts.

(** ** Facts about the reply extraction *)

Section ExtractFacts.

Implicit Types s t body post pre : str.

Lemma search_unfold s :
  Re.search fence_re s =
  match match_fence s with
  | Some g => Some g
  | None => match s with [] => None | _ :: s' => Re.search fence_re s' end
  end.
Proof. destruct s; reflexivity. Qed.

Lemma match_fence_no_fence s : startswith fence s = false -> match_fence s = None.
Proof.
  intros H. unfold match_fence, fence_re. cbn [Re.match_re]. now rewrite H.
Qed.

Lemma match_fence_unfold s :
  match_fence (fence ++ s) =
  match (if startswith (py "python") s
         then if startswith nl (drop 6 s)
              then Re.any_lazy after_group [] (drop 1 (drop 6 s))
              else None
         else None) with
  | Some a => Some a
  | None => if startswith nl s then Re.any_lazy after_group [] (drop 1 s) else None
  end.
Proof. reflexivity. Qed.

Lemma match_fence_python s :
  match_fence (fence ++ py "python" ++ nl ++ s) = Re.any_lazy after_group [] s.
Proof.
  rewrite match_fence_unfold.
  change (startswith (py "python") (py "python" ++ nl ++ s)) with true.
  change (drop 6 (py "python" ++ nl ++ s)) with (nl ++ s).
  change (startswith nl (nl ++ s)) with true.
  change (drop 1 (nl ++ s)) with s. cbv iota.
  now destruct (Re.any_lazy after_group [] s).
Qed.

Lemma match_fence_plain s :
  match_fence (fence ++ nl ++ s) = Re.any_lazy after_group [] s.
Proof. reflexivity. Qed.

Lemma close_not_in_nil : ~ substring close [].
Proof. intros [[|? ?] [post H]]; discriminate. Qed.

(** The lazy group ends at the first closing delimiter. *)
Lemma any_lazy_sound s : forall captured g,
  Re.any_lazy after_group captured s = Some g ->
  exists body post,
    s = body ++ close ++ post /\ g = Some (captured ++ body) /\ ~ substring close body.
Proof.
  induction s as [|c s IH]; intros captured g; cbn [Re.any_lazy].
  - unfold after_group. simpl. discriminate.
  - unfold after_group at 1. destruct (startswith close (c :: s)) eqn:E.
    + intros [= <-]. apply startswith_spec in E as [post E].
      exists [], post. rewrite app_nil_r. repeat split; auto using close_not_in_nil.
    + intros H. apply IH in H as [body [post [-> [-> Hn]]]].
      exists (c :: body), post. rewrite <- app_assoc. repeat split.
      intros [[|c' pre] [post' H]]; cbn [app] in H.
      * assert (startswith close (c :: body ++ close ++ post) = true) as E'.
        { apply startswith_spec. exists (post' ++ close ++ post).
          change (c :: body ++ close ++ post) with ((c :: body) ++ close ++ post).
          rewrite H. now rewrite <- app_assoc. }
        congruence.
      * injection H as _ H. apply Hn. now exists pre, post'.
Qed.

Lemma any_lazy_complete s : forall captured,
  substring close s -> exists b, Re.any_lazy after_group captured s = Some (Some b).
Proof.
  induction s as [|c s IH]; intros captured Hs.
  - now apply close_not_in_nil in Hs.
  - cbn [Re.any_lazy]. unfold after_group at 1.
    destruct (startswith close (c :: s)) eqn:E; [eauto|].
    apply IH. destruct Hs as [[|c' pre] [post H]]; cbn [app] in H.
    + assert (startswith close (c :: s) = true) as E'
        by (apply startswith_spec; exists post; exact H).
      congruence.
    + injection H as _ H. now exists pre, post.
Qed.

(** A fence cannot start inside a text that holds none and is followed by
    a newline. *)
Lemma startswith_fence_app b r :
  startswith fence (b ++ 10%N :: r) = true -> substring fence b.
Proof.
  change fence with [96%N; 96%N; 96%N].
  destruct b as [|b1 [|b2 [|b3 b]]]; cbn [app startswith].
  - change (96 =? 10)%N with false. discriminate.
  - change (96 =? 10)%N with false. rewrite andb_false_r. discriminate.
  - change (96 =? 10)%N with false. rewrite !andb_false_r. discriminate.
  - intros H. apply andb_true_iff in H as [H1 H].
    apply andb_true_iff in H as [H2 H]. apply andb_true_iff in H as [H3 _].
    apply N.eqb_eq in H1, H2, H3. subst. now exists [], b.
Qed.

Lemma substring_cons needle c s : substring needle s -> substring needle (c :: s).
Proof. apply (substring_app_l needle s [c]). Qed.

Lemma any_lazy_first body : forall captured post,
  ~ substring fence body ->
  Re.any_lazy after_group captured (body ++ close ++ post) = Some (Some (captured ++ body)).
Proof.
  induction body as [|c body IH]; intros captured post Hn.
  - rewrite app_nil_r. reflexivity.
  - cbn [app Re.any_lazy]. unfold after_group at 1.
    destruct (startswith close (c :: body ++ close ++ post)) eqn:E.
    + exfalso. change close with (10%N :: fence) in E. cbn [app startswith] in E.
      apply andb_true_iff in E as [_ E].
      apply Hn, substring_cons. now apply (startswith_fence_app body (fence ++ post)).
    + rewrite IH, <- app_assoc; [reflexivity|].
      intros H. now apply Hn, substring_cons.
Qed.

Lemma match_fence_sound s g :
  match_fence s = Some g ->
  exists tag body post,
    s = fence ++ tag ++ nl ++ body ++ close ++ post
    /\ (tag = [] \/ tag = py "python") /\ g = Some body /\ ~ substring close body.
Proof.
  destruct (startswith fence s) eqn:E;
    [| now rewrite match_fence_no_fence by exact E].
  apply startswith_spec in E as [s1 ->]. rewrite match_fence_unfold.
  destruct (startswith (py "python") s1) eqn:E1.
  - apply startswith_spec in E1 as [s2 ->].
    change (drop 6 (py "python" ++ s2)) with s2.
    change (startswith nl (py "python" ++ s2)) with false.
    destruct (startswith nl s2) eqn:E2; [|discriminate].
    apply startswith_spec in E2 as [s3 ->]. change (drop 1 (nl ++ s3)) with s3.
    destruct (Re.any_lazy after_group [] s3) eqn:E3; [|discriminate].
    intros [= <-]. apply any_lazy_sound in E3 as [body [post [-> [-> Hn]]]].
    exists (py "python"), body, post. auto.
  - destruct (startswith nl s1) eqn:E2; [|discriminate].
    apply startswith_spec in E2 as [s3 ->]. change (drop 1 (nl ++ s3)) with s3.
    intros H. apply any_lazy_sound in H as [body [post [-> [-> Hn]]]].
    exists [], body, post. auto.
Qed.

Lemma match_fence_complete tag body post :
  tag = [] \/ tag = py "python" ->
  exists b, match_fence (fence ++ tag ++ nl ++ body ++ close ++ post) = Some (Some b).
Proof.
  intros [-> | ->].
  - cbn [app]. rewrite match_fence_plain. apply any_lazy_complete.
    now exists body, post.
  - rewrite match_fence_python. apply any_lazy_complete. now exists body, post.
Qed.

(** [re.search] finds a match exactly in the texts that hold a block. *)
Lemma search_sound s : forall g,
  Re.search fence_re s = Some g ->
  exists body, g = Some body /\ ~ substring close body /\ has_block s.
Proof.
  induction s as [|c s IH]; intros g; rewrite search_unfold.
  - destruct (match_fence []) eqn:E; [|discriminate]. discriminate.
  - destruct (match_fence (c :: s)) as [g'|] eqn:E.
    + intros [= <-].
      apply match_fence_sound in E as [tag [body [post [E [Ht [-> Hn]]]]]].
      exists body. repeat split; auto. exists [], tag, body, post. auto.
    + intros H. apply IH in H as [body [-> [Hn [pre [tag [b [post [-> Ht]]]]]]]].
      exists body. repeat split; auto. exists (c :: pre), tag, b, post. auto.
Qed.

Lemma search_complete s : has_block s -> exists b, Re.search fence_re s = Some (Some b).
Proof.
  intros [pre [tag [body [post [-> Ht]]]]]. induction pre as [|c pre IH].
  - rewrite search_unfold.
    destruct (match_fence_complete tag body post Ht) as [b E].
    cbn [app]. rewrite E. eauto.
  - rewrite search_unfold.
    destruct (match_fence _) as [g|] eqn:E; [|exact IH].
    apply match_fence_sound in E as [_ [b [_ [_ [_ [-> _]]]]]]. eauto.
Qed.

Lemma search_none s : Re.search fence_re s = None <-> ~ has_block s.
Proof.
  split.
  - intros E H. apply search_complete in H as [b H]. congruence.
  - intros H. destruct (Re.search fence_re s) as [g|] eqn:E; [|reflexivity].
    apply search_sound in E as [_ [_ [_ Hb]]]. contradiction.
Qed.

Lemma has_block_substring s t : substring s t -> has_block s -> has_block t.
Proof.
  intros [a [b ->]] [pre [tag [body [post [-> Ht]]]]].
  exists (a ++ pre), tag, body, (post ++ b). split; [|exact Ht].
  now rewrite <- !app_assoc.
Qed.

Lemma has_block_close s : has_block s -> substring close s.
Proof.
  intros [pre [tag [body [post [-> _]]]]].
  exists (pre ++ fence ++ tag ++ nl ++ body), post. now rewrite <- !app_assoc.
Qed.

Lemma has_block_fence s : has_block s -> substring fence s.
Proof.
  intros [pre [tag [body [post [-> _]]]]]. now exists pre, (tag ++ nl ++ body ++ close ++ post).
Qed.

Lemma extract_text_no_block s : ~ has_block s -> extract_text s = strip s.
Proof. intros H. unfold extract_text. apply search_none in H. now rewrite H. Qed.

Lemma extract_text_block s :
  has_block s ->
  exists body, Re.search fence_re s = Some (Some body)
               /\ extract_text s = strip body /\ ~ substring close body.
Proof.
  intros H. destruct (search_complete s H) as [b E].
  destruct (search_sound s _ E) as [body [[= <-] [Hn _]]].
  exists b. unfold extract_text. rewrite E. auto.
Qed.

(** The search skips a text without fences that ends in a newline. *)
Lemma search_skip pre s :
  ~ substring fence pre -> Re.search fence_re (pre ++ nl ++ s) = Re.search fence_re s.
Proof.
  induction pre as [|c pre IH]; intros Hn.
  - rewrite search_unfold. reflexivity.
  - rewrite search_unfold, match_fence_no_fence.
    + apply IH. intros H. now apply Hn, substring_cons.
    + destruct (startswith fence ((c :: pre) ++ nl ++ s)) eqn:E; [|reflexivity].
      apply (startswith_fence_app (c :: pre) s) in E. contradiction.
Qed.

Lemma extract_text_fenced_reply pre body post :
  ~ substring fence pre -> ~ substring fence body ->
  extract_text (fenced_reply pre body post) = strip body.
Proof.
  intros Hpre Hbody. unfold extract_text, fenced_reply.
  rewrite search_skip by exact Hpre. rewrite search_unfold, match_fence_python.
  change (body ++ nl ++ fence ++ nl ++ post) with (body ++ close ++ nl ++ post).
  now rewrite any_lazy_first by exact Hbody.
Qed.

Lemma extract_text_idem s : extract_text (extract_text s) = extract_text s.
Proof.
  destruct (Re.search fence_re s) as [g|] eqn:E.
  - apply search_sound in E as [body [-> [Hn Hb]]].
    destruct (extract_text_block s Hb) as [b [_ [-> Hn']]].
    rewrite extract_text_no_block; [apply strip_idem|].
    intros H. apply has_block_close in H.
    apply Hn'. eapply substring_trans; [exact H | apply strip_substring].
  - apply search_none in E. rewrite (extract_text_no_block s E).
    rewrite extract_text_no_block; [apply strip_idem|].
    intros H. apply E. eapply has_block_substring; [apply strip_substring | exact H].
Qed.

End ExtractFacts.

(** ** More facts about strings and the evaluator *)

Section MoreStringFacts.

Implicit Types s t : str.

Lemma py_cons (a : ascii) (r : string) : py (String a r) = N_of_ascii a :: py r.
Proof. reflexivity. Qed.

Lemma lacks_spec c s : lacks c s = true <-> c ∉ s.
Proof.
  unfold lacks. rewrite forallb_forall. split.
  - intros H Hin. apply list_elem_of_In, H in Hin.
    apply negb_true_iff, N.eqb_neq in Hin. congruence.
  - intros H x Hx. apply negb_true_iff, N.eqb_neq. intros ->.
    now apply H, list_elem_of_In.
Qed.

Lemma lacks_app c s t : lacks c (s ++ t) = lacks c s && lacks c t.
Proof. apply forallb_app. Qed.

Lemma lacks_substring c needle s :
  substring needle s -> lacks c s = true -> lacks c needle = true.
Proof.
  intros [pre [post ->]]. rewrite !lacks_app, !andb_true_iff. tauto.
Qed.

Lemma lacks_join c sep (l : list str) :
  lacks c sep = true -> Forall (fun x => lacks c x = true) l ->
  lacks c (join sep l) = true.
Proof.
  intros Hs. induction 1 as [|x l Hx Hl IH]; [reflexivity|].
  destruct l as [|y l]; [exact Hx|].
  change (join sep (x :: y :: l)) with (x ++ sep ++ join sep (y :: l)).
  now rewrite !lacks_app, Hx, Hs, IH.
Qed.

(** A rendered integer is made of digits and at most a sign. *)
Lemma show_Z_chars (n : Z) :
  Forall (fun c => c = 45%N \/ (48 <= c <= 57)%N) (show_Z n).
Proof.
  assert (forall d, Forall (fun c => c = 45%N \/ (48 <= c <= 57)%N)
                      (py (NilEmpty.string_of_uint d))) as Hu.
  { induction d; cbn [NilEmpty.string_of_uint]; [constructor|..];
      rewrite py_cons; (constructor; [right; vm_compute; split; discriminate | exact IHd]). }
  unfold show_Z, NilEmpty.string_of_int. destruct (Z.to_int n) as [d|d].
  - apply Hu.
  - rewrite py_cons. constructor; [left; reflexivity | apply Hu].
Qed.

Lemma lacks_show_Z c (n : Z) :
  c <> 45%N -> (c < 48 \/ 57 < c)%N -> lacks c (show_Z n) = true.
Proof.
  intros H1 H2. unfold lacks. apply forallb_forall. intros x Hx.
  pose proof (show_Z_chars n) as H. rewrite Forall_forall in H.
  apply list_elem_of_In in Hx. specialize (H x Hx).
  apply negb_true_iff, N.eqb_neq. lia.
Qed.

(** *** Words *)

Lemma split_go_words s : forall tok,
  forallb (fun c => negb (isspace c)) tok = true ->
  Forall word (split_go tok s).
Proof.
  induction s as [|c s IH]; intros tok Ht; cbn [split_go].
  - destruct tok; [constructor|]. constructor; [|constructor]. now split.
  - destruct (isspace c) eqn:Hc.
    + destruct tok as [|a tok]; [now apply IH|].
      constructor; [now split | now apply IH].
    + apply IH. rewrite forallb_app, Ht. cbn. now rewrite Hc.
Qed.

Lemma split_go_word_prefix w : forall tok r,
  forallb (fun c => negb (isspace c)) w = true ->
  split_go tok (w ++ r) = split_go (tok ++ w) r.
Proof.
  induction w as [|c w IH]; intros tok r Hw.
  - now rewrite app_nil_r.
  - cbn in Hw. apply andb_true_iff in Hw as [Hc Hw]. apply negb_true_iff in Hc.
    cbn [app split_go]. rewrite Hc, IH by exact Hw. now rewrite <- app_assoc.
Qed.

Lemma split_word w : word w -> split w = [w].
Proof.
  intros [Hn Hw]. unfold split.
  rewrite <- (app_nil_r w) at 1. rewrite split_go_word_prefix by exact Hw.
  cbn. now destruct w.
Qed.

Lemma split_word_blank w b r :
  word w -> isspace b = true -> split (w ++ b :: r) = w :: split r.
Proof.
  intros [Hn Hw] Hb. unfold split. rewrite split_go_word_prefix by exact Hw.
  cbn [app split_go]. rewrite Hb. now destruct w.
Qed.

Lemma split_join_words (l : list str) : Forall word l -> split (join [32%N] l) = l.
Proof.
  induction 1 as [|x l Hx Hl IH]; [reflexivity|].
  destruct l as [|y l]; [now apply split_word|].
  change (join [32%N] (x :: y :: l)) with (x ++ 32%N :: join [32%N] (y :: l)).
  rewrite split_word_blank by (exact Hx || reflexivity). now rewrite IH.
Qed.

Lemma split_blank s : blank s = true -> split s = [].
Proof.
  unfold split, blank. induction s as [|c s IH]; [reflexivity|].
  cbn. intros H. apply andb_true_iff in H as [Hc H]. rewrite Hc. now apply IH.
Qed.

Lemma blank_substring needle s : substring needle s -> blank s = true -> blank needle = true.
Proof.
  intros [pre [post ->]]. unfold blank. rewrite !forallb_app, !andb_true_iff. tauto.
Qed.

Lemma split_go_newlines_to_spaces s : forall tok,
  split_go tok (newlines_to_spaces s) = split_go tok s.
Proof.
  induction s as [|c s IH]; intros tok; [reflexivity|].
  cbn [newlines_to_spaces map split_go]. fold (newlines_to_spaces s).
  destruct (c =? 10)%N eqn:E.
  - apply N.eqb_eq in E. subst c.
    change (isspace 32) with true. change (isspace 10) with true.
    cbv iota. now rewrite !IH.
  - now rewrite !IH.
Qed.

Lemma filter_sublist {A} (p q : A -> bool) (l : list A) :
  (forall x, p x = true -> q x = true) ->
  sublist (List.filter p l) (List.filter q l).
Proof.
  intros H. induction l as [|x l IH]; cbn; [constructor|].
  destruct (p x) eqn:Hp.
  - rewrite (H x Hp). now constructor.
  - destruct (q x); [now constructor | exact IH].
Qed.

Lemma required_sections_lack c :
  c = 83%N \/ c = 10%N -> Forall (fun m => lacks c m = true) required_sections.
Proof. intros [-> | ->]; repeat constructor. Qed.

Lemma missing_sections_lack c t :
  c = 83%N \/ c = 10%N -> Forall (fun m => lacks c m = true) (missing_sections t).
Proof.
  intros Hc. pose proof (required_sections_lack c Hc) as H.
  rewrite Forall_forall in *. intros m Hm.
  apply H. now apply missing_sections_spec in Hm as [Hm _].
Qed.

Lemma too_long_msg_lacks c n :
  c = 83%N \/ c = 10%N -> lacks c (too_long_msg n) = true.
Proof.
  intros Hc. unfold too_long_msg. rewrite !lacks_app, lacks_show_Z by (destruct Hc; subst; lia).
  destruct Hc; subst; reflexivity.
Qed.

Lemma missing_msg_lacks c t :
  c = 83%N \/ c = 10%N -> lacks c (missing_msg (missing_sections t)) = true.
Proof.
  intros Hc. unfold missing_msg.
  rewrite !lacks_app, lacks_join; [destruct Hc; subst; reflexivity | |].
  - destruct Hc; subst; reflexivity.
  - now apply missing_sections_lack.
Qed.

(** A feedback that reports a failure holds no capital S. *)
Lemma failure_lacks_S t max_words :
  (max_words <? word_count t) = true \/ missing_sections t <> [] ->
  lacks 83 (evaluate_paper t max_words) = true.
Proof.
  intros H. rewrite evaluate_paper_cases.
  destruct (max_words <? word_count t); destruct (missing_sections t) as [|m ms] eqn:E.
  - apply too_long_msg_lacks. auto.
  - rewrite <- E, !lacks_app, too_long_msg_lacks, missing_msg_lacks by auto. reflexivity.
  - destruct H; congruence.
  - rewrite <- E. apply missing_msg_lacks. auto.
Qed.

Lemma feedback_lacks_newline t max_words :
  lacks 10 (evaluate_paper t max_words) = true.
Proof.
  rewrite evaluate_paper_cases.
  destruct (max_words <? word_count t); destruct (missing_sections t) as [|m ms] eqn:E.
  - apply too_long_msg_lacks. auto.
  - rewrite <- E, !lacks_app, too_long_msg_lacks, missing_msg_lacks by auto. reflexivity.
  - unfold success_msg. rewrite !lacks_app, lacks_show_Z by lia. reflexivity.
  - rewrite <- E. apply missing_msg_lacks. auto.
Qed.

Lemma feedback_not_empty t max_words : evaluate_paper t max_words <> [].
Proof.
  rewrite evaluate_paper_cases.
  destruct (max_words <? word_count t); destruct (missing_sections t); discriminate.
Qed.

Lemma missing_sections_blank t : blank t = true -> missing_sections t = required_sections.
Proof.
  intros Hb. unfold missing_sections.
  assert (forall m, m ∈ required_sections -> contains m t = false) as H.
  { intros m Hm. apply contains_false. intros Hs.
    pose proof (blank_substring m t Hs Hb) as Hm'.
    apply list_elem_of_In in Hm. cbn in Hm.
    repeat (destruct Hm as [<- | Hm]; [discriminate|]). exact Hm. }
  unfold required_sections in *. cbn [List.filter].
  rewrite !H by (repeat constructor). reflexivity.
Qed.

End MoreStringFacts.

(** ** More facts about the reply extraction *)

Section MoreExtractFacts.

Implicit Types s t body post pre tag : str.

Lemma match_fence_body s b :
  match_fence s = Some (Some b) -> substring b s.
Proof.
  intros H. apply match_fence_sound in H as [tag [body [post [-> [_ [[= <-] _]]]]]].
  exists (fence ++ tag ++ nl), (close ++ post). now rewrite <- !app_assoc.
Qed.

(** The text [re.search] captures is a piece of the text searched. *)
Lemma search_body_substring s : forall b,
  Re.search fence_re s = Some (Some b) -> substring b s.
Proof.
  induction s as [|c s IH]; intros b; rewrite search_unfold.
  - destruct (match_fence []) as [g|] eqn:E; [|discriminate].
    intros [= ->]. now apply match_fence_body.
  - destruct (match_fence (c :: s)) as [g|] eqn:E.
    + intros [= ->]. now apply match_fence_body.
    + intros H. now apply substring_cons, IH.
Qed.

Lemma extract_text_substring s : substring (extract_text s) s.
Proof.
  unfold extract_text. destruct (Re.search fence_re s) as [[b|]|] eqn:E;
    try apply strip_substring.
  eapply substring_trans; [apply strip_substring | now apply search_body_substring].
Qed.

Lemma extract_text_leaves_no_block s : ~ has_block (extract_text s).
Proof.
  destruct (Re.search fence_re s) as [g|] eqn:E.
  - apply search_sound in E as [body [-> [Hn Hb]]].
    destruct (extract_text_block s Hb) as [b [_ [-> Hn']]].
    intros H. apply has_block_close in H.
    apply Hn'. eapply substring_trans; [exact H | apply strip_substring].
  - apply search_none in E. rewrite (extract_text_no_block s E).
    intros H. apply E. eapply has_block_substring; [apply strip_substring | exact H].
Qed.

Lemma extract_text_block_at_start tag body post :
  tag = [] \/ tag = py "python" -> ~ substring fence body ->
  extract_text (fence ++ tag ++ nl ++ body ++ nl ++ fence ++ post) = strip body.
Proof.
  intros Ht Hbody. unfold extract_text. rewrite search_unfold.
  change (body ++ nl ++ fence ++ post) with (body ++ close ++ post).
  destruct Ht as [-> | ->].
  - cbn [app]. rewrite match_fence_plain. now rewrite any_lazy_first by exact Hbody.
  - rewrite match_fence_python. now rewrite any_lazy_first by exact Hbody.
Qed.

Lemma extract_text_skip pre s :
  ~ substring fence pre -> has_block s ->
  extract_text (pre ++ nl ++ s) = extract_text s.
Proof.
  intros Hpre Hb. unfold extract_text. rewrite search_skip by exact Hpre.
  destruct (search_complete s Hb) as [b ->]. reflexivity.
Qed.

(** A closing delimiter cannot start inside a fence. *)
Lemma close_after_fence post : substring close (fence ++ post) -> substring close post.
Proof.
  intros [a [b H]]. change close with (10%N :: fence) in *.
  change fence with [96%N; 96%N; 96%N] in H.
  destruct a as [|a1 [|a2 [|a3 a]]]; cbn [app] in H; try discriminate.
  injection H as _ _ _ H. now exists a, b.
Qed.

Lemma fence_in_backticks tag : 96%N ∉ tag -> ~ substring fence (96%N :: 96%N :: tag).
Proof.
  intros Ht [a [b H]]. change fence with [96%N; 96%N; 96%N] in H.
  apply Ht. destruct a as [|a1 [|a2 a]]; cbn [app] in H.
  - injection H as ->. left.
  - injection H as _ ->. left.
  - injection H as _ _ ->. rewrite elem_of_app. right. left.
Qed.

(** A fence tagged with anything but [python] is no opening of the
    pattern. *)
Lemma match_fence_other_tag tag r :
  tag <> [] -> 10%N ∉ tag -> tag <> py "python" ->
  match_fence (fence ++ tag ++ nl ++ r) = None.
Proof.
  intros Hne Hnl Hpy. rewrite match_fence_unfold.
  assert (startswith nl (tag ++ nl ++ r) = false) as E0.
  { destruct tag as [|a tag]; [congruence|]. apply not_elem_of_cons in Hnl as [Ha _].
    cbn [app]. change nl with [10%N]. cbn [startswith].
    apply andb_false_iff. left. apply N.eqb_neq. congruence. }
  rewrite E0.
  destruct (startswith (py "python") (tag ++ nl ++ r)) eqn:E1; [|reflexivity].
  apply startswith_spec in E1 as [s2 E1]. rewrite E1.
  change (drop 6 (py "python" ++ s2)) with s2.
  apply app_eq_inv in E1 as [[k [-> E2]] | [k [E2 E3]]].
  - destruct k as [|c k]; [now rewrite app_nil_r in Hpy|].
    rewrite E2. apply not_elem_of_app in Hnl as [_ Hc].
    apply not_elem_of_cons in Hc as [Hc _].
    cbn [app]. change nl with [10%N]. cbn [startswith].
    replace (10 =? c)%N with false by (symmetry; apply N.eqb_neq; congruence).
    reflexivity.
  - exfalso. destruct k as [|c k].
    + rewrite app_nil_r in E2. congruence.
    + change (nl ++ r) with (10%N :: r) in E3. injection E3 as <- _.
      assert (10%N ∈ py "python") as Hin by (rewrite E2, elem_of_app; right; left).
      apply lacks_spec in Hin; [exact Hin | reflexivity].
Qed.

Lemma extract_text_other_tag_at_start tag body post :
  tag <> [] -> 10%N ∉ tag -> 96%N ∉ tag -> tag <> py "python" ->
  ~ substring fence body -> ~ substring close post ->
  Re.search fence_re (fence ++ tag ++ nl ++ body ++ nl ++ fence ++ post) = None.
Proof.
  intros Hne Hnl Hbt Hpy Hbody Hpost.
  rewrite search_unfold, match_fence_other_tag by assumption.
  change (fence ++ tag ++ nl ++ body ++ nl ++ fence ++ post)
    with (96%N :: (96%N :: 96%N :: tag) ++ nl ++ body ++ nl ++ fence ++ post).
  cbv iota. rewrite search_skip by now apply fence_in_backticks.
  rewrite search_skip by exact Hbody.
  apply search_none. intros H. now apply Hpost, close_after_fence, has_block_close.
Qed.

End MoreExtractFacts.

(** ** What can be written and printed *)

Section EncodingFacts.

Implicit Types s t : str.

Lemma encodable_app codec s t :
  encodable codec (s ++ t) = encodable codec s && encodable codec t.
Proof. apply forallb_app. Qed.

Lemma ascii_only_app s t : ascii_only (s ++ t) = ascii_only s && ascii_only t.
Proof. apply forallb_app. Qed.

Lemma ascii_encodable codec s : ascii_only s = true -> encodable codec s = true.
Proof.
  unfold ascii_only, encodable. rewrite !forallb_forall. intros H c Hc.
  now rewrite (H c Hc).
Qed.

Lemma encodable_substring codec s t :
  substring s t -> encodable codec t = true -> encodable codec s = true.
Proof.
  intros [pre [post ->]]. rewrite !encodable_app, !andb_true_iff. tauto.
Qed.

Lemma extract_text_encodable codec s :
  encodable codec s = true -> encodable codec (extract_text s) = true.
Proof. apply encodable_substring, extract_text_substring. Qed.

Lemma show_Z_ascii (n : Z) : ascii_only (show_Z n) = true.
Proof.
  unfold ascii_only. apply forallb_forall. intros c Hc.
  pose proof (show_Z_chars n) as H. rewrite Forall_forall in H.
  apply list_elem_of_In in Hc. specialize (H c Hc). apply N.ltb_lt. lia.
Qed.

Lemma ascii_only_join sep (l : list str) :
  ascii_only sep = true -> Forall (fun x => ascii_only x = true) l ->
  ascii_only (join sep l) = true.
Proof.
  intros Hs. induction 1 as [|x l Hx Hl IH]; [reflexivity|].
  destruct l as [|y l]; [exact Hx|].
  change (join sep (x :: y :: l)) with (x ++ sep ++ join sep (y :: l)).
  now rewrite !ascii_only_app, Hx, Hs, IH.
Qed.

Lemma missing_sections_ascii t : Forall (fun m => ascii_only m = true) (missing_sections t).
Proof.
  assert (Forall (fun m => ascii_only m = true) required_sections) as H
    by (repeat constructor).
  rewrite Forall_forall in *. intros m Hm.
  apply H. now apply missing_sections_spec in Hm as [Hm _].
Qed.

(** The feedback is ASCII whatever the text evaluated. *)
Lemma evaluate_paper_ascii t max_words : ascii_only (evaluate_paper t max_words) = true.
Proof.
  rewrite evaluate_paper_cases.
  assert (ascii_only (missing_msg (missing_sections t)) = true) as Hm.
  { unfold missing_msg. rewrite !ascii_only_app, ascii_only_join;
      [reflexivity | reflexivity | apply missing_sections_ascii]. }
  assert (forall n, ascii_only (too_long_msg n) = true) as Hl.
  { intros n. unfold too_long_msg. now rewrite !ascii_only_app, show_Z_ascii. }
  destruct (max_words <? word_count t); destruct (missing_sections t) as [|m ms] eqn:E.
  - apply Hl.
  - rewrite !ascii_only_app, Hl, Hm. reflexivity.
  - unfold success_msg. now rewrite !ascii_only_app, show_Z_ascii.
  - exact Hm.
Qed.

Lemma feedback_line_ascii i t max_words :
  ascii_only (feedback_line i (evaluate_paper t max_words)) = true.
Proof.
  unfold feedback_line.
  now rewrite !ascii_only_app, show_Z_ascii, evaluate_paper_ascii.
Qed.

Lemma dummy_paper_ascii : ascii_only dummy_paper = true.
Proof. vm_compute. reflexivity. Qed.

Lemma final_header_ascii : ascii_only final_header = true.
Proof. vm_compute. reflexivity. Qed.

End EncodingFacts.

(** ** Facts about the monad and the driver *)

Section RunFacts.

Variable env : providers.

Lemma replay_app t1 t2 m : replay (t1 ++ t2) m = replay t2 (replay t1 m).
Proof. unfold replay. apply fold_left_app. Qed.

Lemma runs_ret {A} (a : A) w : runs (ret a) w a [].
Proof. unfold runs, ret. destruct w. simpl. now rewrite app_nil_r. Qed.

Lemma runs_bind {A B} (m : M A) (f : A -> M B) w a t1 b t2 :
  runs m w a t1 ->
  runs (f a) {| files := replay t1 (files w); trace := trace w ++ t1 |} b t2 ->
  runs (bind m f) w b (t1 ++ t2).
Proof.
  unfold runs, bind. intros -> ->. simpl. now rewrite replay_app, app_assoc.
Qed.

Lemma runs_lift {A} (a : A) w : runs (lift (Ok a)) w a [].
Proof. apply (runs_ret a w). Qed.

Lemma runs_write f d w :
  encodable (file_codec env) d = true -> runs (write_file env f d) w tt [EvWrite f d].
Proof. intros H. unfold runs, write_file. now rewrite H. Qed.

Lemma runs_print line w :
  encodable (terminal_codec env) line = true -> runs (print env line) w tt [EvPrint line].
Proof. intros H. unfold runs, print. now rewrite H. Qed.

Lemma ascii_writable s : ascii_only s = true -> writable env s.
Proof. intros H. split; now apply ascii_encodable. Qed.

Lemma runs_search query max_results results w :
  arxiv_results env query max_results = Ok results ->
  runs (arxiv_client_results env query max_results) w results [EvSearch query max_results].
Proof.
  intros E. unfold arxiv_client_results.
  apply (runs_bind _ _ w tt [EvSearch query max_results] results []).
  - reflexivity.
  - rewrite E. apply runs_lift.
Qed.

Lemma runs_chat model messages choices w :
  chat_create env (chat_requests (trace w)) model messages = Ok choices ->
  runs (chat_completions_create env model messages) w choices [EvChat model messages].
Proof.
  intros E. unfold runs, chat_completions_create, bind, emit, lift.
  cbn [trace files]. now rewrite E.
Qed.

Lemma runs_generate_test self prompt w :
  test_mode self = true ->
  runs (generate_paper env self prompt) w dummy_paper [EvGenerate prompt].
Proof.
  intros E. unfold generate_paper. rewrite E.
  apply (runs_bind _ _ w tt [EvGenerate prompt] dummy_paper []).
  - reflexivity.
  - apply runs_ret.
Qed.

Lemma runs_generate_live self prompt c w :
  test_mode self = false -> client self = Some c -> chat_answers env ->
  exists paper,
    runs (generate_paper env self prompt) w paper
      [EvGenerate prompt; EvChat (model self) (chat_messages prompt)]
    /\ (replies_encodable env -> writable env paper).
Proof.
  intros E Ec Hchat. unfold generate_paper. rewrite E, Ec.
  set (w1 := {| files := replay [EvGenerate prompt] (files w);
                trace := trace w ++ [EvGenerate prompt] |}).
  destruct (Hchat (chat_requests (trace w1)) (model self) (chat_messages prompt))
    as [first [others Ea]].
  exists (extract_text first). split;
    [|intros Hr; destruct (Hr _ _ _ _ _ Ea) as [Hf Ht];
      split; now apply extract_text_encodable].
  apply (runs_bind _ _ w tt [EvGenerate prompt] _
           [EvChat (model self) (chat_messages prompt)]); [reflexivity|].
  fold w1.
  apply (runs_bind _ _ w1 c [] _ [EvChat (model self) (chat_messages prompt)]);
    [apply runs_lift|].
  replace {| files := replay [] (files w1); trace := trace w1 ++ [] |} with w1
    by (destruct w1; simpl; now rewrite app_nil_r).
  replace [EvChat (model self) (chat_messages prompt)]
    with ([EvChat (model self) (chat_messages prompt)] ++ [] ++ [] : list event)
    by reflexivity.
  eapply runs_bind; [apply runs_chat; exact Ea|].
  eapply runs_bind; [apply runs_lift | apply runs_ret].
Qed.

Lemma runs_generate self prompt w :
  can_generate env self -> can_write env self ->
  exists paper t,
    runs (generate_paper env self prompt) w paper t
    /\ map kind_of t = gen_kinds (test_mode self)
    /\ (test_mode self = true -> paper = dummy_paper)
    /\ writable env paper.
Proof.
  intros Hg Hw. destruct (test_mode self) eqn:E.
  - exists dummy_paper, [EvGenerate prompt].
    split; [now apply runs_generate_test|].
    split; [reflexivity|]. split; [reflexivity|].
    apply ascii_writable, dummy_paper_ascii.
  - destruct Hg as [Hg | [[c Ec] Hchat]]; [congruence|].
    destruct Hw as [Hw | Hw]; [congruence|].
    destruct (runs_generate_live self prompt c w E Ec Hchat) as [paper [H Hp]].
    exists paper, [EvGenerate prompt; EvChat (model self) (chat_messages prompt)].
    split; [exact H|]. split; [reflexivity|]. split; [discriminate | auto].
Qed.

Lemma runs_iteration self i d w :
  can_generate env self -> can_write env self -> writable env d ->
  exists d' g,
    runs (iteration env self i d) w d'
      ([EvWrite file_name d; EvPrint (feedback_line i (evaluate_paper d 500))] ++ g)
    /\ map kind_of g = gen_kinds (test_mode self)
    /\ (test_mode self = true -> d' = dummy_paper)
    /\ writable env d'.
Proof.
  intros Hg Hw [Hdf Hdt]. unfold iteration, refine_paper.
  set (w2 := {| files := replay [EvWrite file_name d; EvPrint (feedback_line i (evaluate_paper d 500))] (files w);
                trace := trace w ++ [EvWrite file_name d; EvPrint (feedback_line i (evaluate_paper d 500))] |}).
  match goal with |- context [generate_paper env self ?p] =>
    destruct (runs_generate self p w2 Hg Hw) as [d' [g [Hr [Hk [Hd Hd']]]]] end.
  exists d', g. split; [|auto].
  change ([EvWrite file_name d; EvPrint (feedback_line i (evaluate_paper d 500))] ++ g)
    with ([EvWrite file_name d] ++ [EvPrint (feedback_line i (evaluate_paper d 500))] ++ g).
  eapply runs_bind; [now apply runs_write|].
  eapply runs_bind; [apply runs_print, ascii_encodable, feedback_line_ascii|].
  cbn [files trace]. rewrite <- replay_app, <- app_assoc. exact Hr.
Qed.

Lemma runs_for_each self n : forall i d w,
  can_generate env self -> can_write env self -> writable env d ->
  exists d' t,
    runs (for_each (iteration env self) (seq i n) d) w d' t
    /\ loop_events (test_mode self) i n d t d'
    /\ (test_mode self = true -> d = dummy_paper -> d' = dummy_paper)
    /\ writable env d'.
Proof.
  induction n as [|n IH]; intros i d w Hg Hw Hd0.
  - exists d, []. split; [apply runs_ret|]. split; [constructor | auto].
  - destruct (runs_iteration self i d w Hg Hw Hd0) as [d1 [g [Hr [Hk [Hd Hd1]]]]].
    set (t1 := [EvWrite file_name d; EvPrint (feedback_line i (evaluate_paper d 500))] ++ g) in *.
    destruct (IH (S i) d1 {| files := replay t1 (files w); trace := trace w ++ t1 |}
                Hg Hw Hd1)
      as [d' [t [Hr' [Hl [Hd' Hd'']]]]].
    exists d', (t1 ++ t). split; [|split; [|split]].
    + simpl seq. cbn [for_each]. eapply runs_bind; [exact Hr | exact Hr'].
    + unfold t1. rewrite <- app_assoc. now apply loop_step with (d' := d1).
    + intros E _. auto.
    + exact Hd''.
Qed.

(** The whole run, when the search provider answers and the generator can
    return. *)
Lemma runs_run self results w :
  arxiv_results env default_query 5 = Ok results ->
  can_generate env self -> can_write env self ->
  exists g d0 t d,
    runs (run env self) w tt
      ([EvSearch default_query 5] ++ g ++ t
       ++ [EvPrint final_header; EvPrint d; EvWrite file_name d])
    /\ map kind_of g = gen_kinds (test_mode self)
    /\ loop_events (test_mode self) 0 (Z.to_nat (iterations self)) d0 t d
    /\ (test_mode self = true -> d = dummy_paper).
Proof.
  intros Es Hg Hw. unfold run, fetch_latest_papers.
  set (papers := map summary_of results).
  set (w1 := {| files := replay [EvSearch default_query 5] (files w);
                trace := trace w ++ [EvSearch default_query 5] |}).
  destruct (runs_generate self (base_prompt papers) w1 Hg Hw)
    as [d0 [g [Hr0 [Hk0 [Hd0 Hw0]]]]].
  set (w2 := {| files := replay g (files w1); trace := trace w1 ++ g |}).
  destruct (runs_for_each self (Z.to_nat (iterations self)) 0%nat d0 w2 Hg Hw Hw0)
    as [d [t [Hr [Hl [Hd [Hdf Hdt]]]]]].
  exists g, d0, t, d. split; [|repeat split; auto].
  eapply runs_bind.
  { replace [EvSearch default_query 5] with ([EvSearch default_query 5] ++ [] : list event)
      by reflexivity.
    eapply runs_bind; [apply runs_search; exact Es | apply runs_ret]. }
  fold w1. eapply runs_bind; [exact Hr0|]. fold w2.
  eapply runs_bind; [exact Hr|].
  change [EvPrint final_header; EvPrint d; EvWrite file_name d]
    with ([EvPrint final_header] ++ [EvPrint d] ++ [EvWrite file_name d]).
  eapply runs_bind; [apply runs_print, ascii_encodable, final_header_ascii|].
  eapply runs_bind; [now apply runs_print | now apply runs_write].
Qed.

(** *** Reading the events of the loop *)

Lemma occurrences_app k ks1 ks2 :
  occurrences k (ks1 ++ ks2) = (occurrences k ks1 + occurrences k ks2)%nat.
Proof. unfold occurrences. now rewrite List.filter_app, length_app. Qed.

Lemma occurrences_cons_eq k ks : occurrences k (k :: ks) = S (occurrences k ks).
Proof.
  unfold occurrences. cbn [List.filter].
  now rewrite bool_decide_eq_true_2 by reflexivity.
Qed.

Lemma occurrences_cons_ne k k' ks :
  k' <> k -> occurrences k (k' :: ks) = occurrences k ks.
Proof.
  intros H. unfold occurrences. cbn [List.filter].
  now rewrite bool_decide_eq_false_2 by exact H.
Qed.

Lemma occurrences_times k n ks :
  occurrences k (times n ks) = (n * occurrences k ks)%nat.
Proof.
  induction n as [|n IH]; [reflexivity|].
  cbn [times]. rewrite occurrences_app, IH. lia.
Qed.


Lemma app_split {A} (l1 l2 pre post : list A) x :
  l1 ++ l2 = pre ++ x :: post ->
  (exists post1, l1 = pre ++ x :: post1 /\ post = post1 ++ l2)
  \/ (exists pre2, pre = l1 ++ pre2 /\ l2 = pre2 ++ x :: post).
Proof.
  revert pre. induction l1 as [|a l1 IH]; intros pre H.
  - right. now exists pre.
  - destruct pre as [|b pre]; cbn [app] in H.
    + injection H as -> <-. left. now exists l1.
    + injection H as -> H. destruct (IH pre H) as [[post1 [-> ->]] | [pre2 [-> ->]]].
      * left. now exists post1.
      * right. now exists pre2.
Qed.



Lemma replay_lookup_write (pre : list event) (f d : str) (m : gmap str str) :
  replay (pre ++ [EvWrite f d]) m !! f = Some d.
Proof. rewrite replay_app. cbn. apply lookup_insert_eq. Qed.


End RunFacts.

(** ** The trace of a whole run *)

Section RunTrace.

Lemma occurrences_run_kinds tm n :
  occurrences KGenerate (run_kinds tm n) = S n
  /\ occurrences KWrite (run_kinds tm n) = S n
  /\ occurrences KPrint (run_kinds tm n) = S (S n)
  /\ occurrences KSearch (run_kinds tm n) = 1%nat
  /\ occurrences KChat (run_kinds tm n) = (if tm then 0 else S n)%nat.
Proof.
  unfold run_kinds. rewrite !occurrences_app, !occurrences_times.
  destruct tm;
    repeat match goal with
           | |- context [occurrences ?k ?l] =>
               let v := eval vm_compute in (occurrences k l) in
               change (occurrences k l) with v
           end;
    repeat split; lia.
Qed.

(** An agent built by [__init__] can call the generator when the chat
    provider answers, and always in test mode. *)
Lemma init_can_write env model n tm key :
  (tm = false -> replies_encodable env) -> can_write env (init model n tm key).
Proof.
  intros H. destruct tm.
  - now left.
  - right. auto.
Qed.

Lemma init_can_generate env model n tm key :
  (tm = false -> chat_answers env) -> can_generate env (init model n tm key).
Proof.
  intros H. destruct tm.
  - now left.
  - right. split; [eexists; reflexivity | auto].
Qed.




(** A trace with more than [i] events of a kind has one with exactly [i]
    of them before it. *)
Lemma occurrences_split k (t : list event) : forall i,
  (i < occurrences k (map kind_of t))%nat ->
  exists pre e post,
    t = pre ++ e :: post /\ kind_of e = k
    /\ occurrences k (map kind_of pre) = i.
Proof.
  induction t as [|e t IH]; intros i Hi; [cbn in Hi; lia|].
  cbn [map] in Hi. destruct (decide (kind_of e = k)) as [Ek | Ek].
  - rewrite Ek, occurrences_cons_eq in Hi. destruct i as [|i].
    + exists [], e, t. auto.
    + destruct (IH i) as [pre [e' [post [-> [Ek' Ho]]]]]; [lia|].
      exists (e :: pre), e', post. repeat split; auto.
      cbn [map]. rewrite Ek, occurrences_cons_eq. now rewrite Ho.
  - rewrite occurrences_cons_ne in Hi by exact Ek.
    destruct (IH i Hi) as [pre [e' [post [-> [Ek' Ho]]]]].
    exists (e :: pre), e', post. repeat split; auto.
    cbn [map]. now rewrite occurrences_cons_ne by exact Ek.
Qed.

Lemma runs_run_trace env self results w :
  arxiv_results env default_query 5 = Ok results ->
  can_generate env self -> can_write env self ->
  exists t d,
    run env self w = (Ok tt, {| files := replay t (files w); trace := trace w ++ t |})
    /\ run_trace (test_mode self) (Z.to_nat (iterations self)) t d
    /\ replay t (files w) !! file_name = Some d
    /\ (test_mode self = true -> d = dummy_paper).
Proof.
  intros Es Hg Hw.
  destruct (runs_run env self results w Es Hg Hw) as [g [d0 [loop [d [H [Hk [Hl Hd]]]]]]].
  eexists _, d. split; [exact H|]. split; [|split; [|exact Hd]].
  - now exists g, d0, loop.
  - replace ([EvSearch default_query 5] ++ g ++ loop
             ++ [EvPrint final_header; EvPrint d; EvWrite file_name d])
      with (([EvSearch default_query 5] ++ g ++ loop ++ [EvPrint final_header; EvPrint d])
            ++ [EvWrite file_name d])
      by (now rewrite <- !app_assoc).
    apply replay_lookup_write.
Qed.

End RunTrace.

(** ** The driver under any provider behaviour *)

Section MoreRunFacts.

Variable env : providers.

Lemma steps_ret {A} (a : A) : steps (ret a) [].
Proof.
  intros w. exists []. cbn. split; [|split; [constructor | reflexivity]].
  destruct w. cbn. now rewrite app_nil_r.
Qed.

Lemma steps_lift {A} (r : result A) : steps (lift r) [].
Proof.
  intros w. exists []. cbn. split; [|split; [constructor|]].
  - destruct w. cbn. now rewrite app_nil_r.
  - destruct r; reflexivity.
Qed.

Lemma steps_emit (e : event) : kind_of e <> KWrite -> steps (emit e) [kind_of e].
Proof.
  intros He w. exists [e]. split; [|split].
  - destruct e; try reflexivity. now destruct He.
  - destruct e; repeat constructor. now destruct He.
  - reflexivity.
Qed.

Lemma steps_write (data : str) : steps (write_file env file_name data) [KWrite].
Proof.
  intros w. unfold write_file. destruct (encodable (file_codec env) data).
  - exists [EvWrite file_name data]. split; [reflexivity|].
    split; [|reflexivity]. now repeat constructor.
  - exists [EvWrite file_name []]. split; [reflexivity|].
    split; [now repeat constructor | now exists []].
Qed.

Lemma steps_print (line : str) : steps (print env line) [KPrint].
Proof.
  unfold print. destruct (encodable (terminal_codec env) line).
  - apply (steps_emit (EvPrint line)). discriminate.
  - intros w. exists []. split; [|split; [constructor | apply prefix_nil]].
    destruct w. cbn. now rewrite app_nil_r.
Qed.

Lemma steps_bind {A B} (m : M A) (f : A -> M B) ks1 ks2 :
  steps m ks1 -> (forall a, steps (f a) ks2) -> steps (bind m f) (ks1 ++ ks2).
Proof.
  intros Hm Hf w. destruct (Hm w) as [t1 [E1 [F1 K1]]]. unfold bind.
  destruct (m w) as [[a|e] w1]; cbn [fst snd] in *; subst w1.
  - destruct (Hf a {| files := replay t1 (files w); trace := trace w ++ t1 |})
      as [t2 [E2 [F2 K2]]].
    exists (t1 ++ t2). split; [|split].
    + rewrite E2. cbn [files trace]. now rewrite replay_app, app_assoc.
    + now apply Forall_app.
    + rewrite map_app, K1. destruct (fst (f a _)).
      * now rewrite K2.
      * now apply prefix_app.
  - exists t1. cbn [fst snd]. split; [reflexivity|]. split; [exact F1|].
    now apply prefix_app_r.
Qed.

Lemma steps_chat (model : str) (messages : list message) :
  steps (chat_completions_create env model messages) [KChat].
Proof.
  intros w. exists [EvChat model messages].
  unfold chat_completions_create, bind, emit, lift. cbn [fst snd files trace].
  split; [reflexivity|]. split; [now repeat constructor|].
  destruct (chat_create env _ model messages); reflexivity.
Qed.

Lemma steps_generate self prompt :
  steps (generate_paper env self prompt) (gen_kinds (test_mode self)).
Proof.
  unfold generate_paper.
  destruct (test_mode self).
  - change (gen_kinds true) with ([kind_of (EvGenerate prompt)] ++ []).
    apply steps_bind; [apply steps_emit; discriminate | intros _; apply steps_ret].
  - change (gen_kinds false)
      with ([kind_of (EvGenerate prompt)] ++ [] ++ [KChat] ++ [] ++ []).
    apply steps_bind; [apply steps_emit; discriminate | intros _].
    apply steps_bind; [apply steps_lift | intros c].
    apply steps_bind; [apply steps_chat | intros choices].
    apply steps_bind; [apply steps_lift | intros paper; apply steps_ret].
Qed.

Lemma steps_iteration self i d :
  steps (iteration env self i d) (iteration_kinds (test_mode self)).
Proof.
  unfold iteration, refine_paper, iteration_kinds.
  change ([KWrite; KPrint] ++ gen_kinds (test_mode self))
    with ([KWrite] ++ [KPrint] ++ gen_kinds (test_mode self)).
  apply steps_bind; [apply steps_write | intros _].
  apply steps_bind; [apply steps_print | intros _]. apply steps_generate.
Qed.

Lemma steps_for_each self n : forall i d,
  steps (for_each (iteration env self) (seq i n) d)
        (times n (iteration_kinds (test_mode self))).
Proof.
  induction n as [|n IH]; intros i d.
  - apply steps_ret.
  - cbn [seq for_each times].
    apply steps_bind; [apply steps_iteration | intros d'; apply IH].
Qed.

Lemma steps_fetch self max_results query :
  steps (fetch_latest_papers env self max_results query) [KSearch].
Proof.
  unfold fetch_latest_papers, arxiv_client_results.
  change [KSearch] with (([kind_of (EvSearch query max_results)] ++ []) ++ []).
  apply steps_bind; [|intros rs; apply steps_ret].
  apply steps_bind; [apply steps_emit; discriminate | intros _; apply steps_lift].
Qed.

Lemma steps_run self :
  steps (run env self) (run_kinds (test_mode self) (Z.to_nat (iterations self))).
Proof.
  unfold run, run_kinds, range.
  apply steps_bind; [apply steps_fetch | intros papers].
  apply steps_bind; [apply steps_generate | intros d0].
  apply steps_bind; [apply steps_for_each | intros d].
  change [KPrint; KPrint; KWrite] with ([KPrint] ++ [KPrint] ++ [KWrite]).
  apply steps_bind; [apply steps_print | intros _].
  apply steps_bind; [apply steps_print | intros _]. apply steps_write.
Qed.

Lemma occurrences_prefix k (l1 l2 : list kind) :
  l1 `prefix_of` l2 -> (occurrences k l1 <= occurrences k l2)%nat.
Proof. intros [l ->]. rewrite occurrences_app. lia. Qed.

Lemma replay_frame (t : list event) : forall (m : gmap str str) (f : str),
  Forall writes_output t -> f <> file_name -> replay t m !! f = m !! f.
Proof.
  induction t as [|e t IH]; intros m f Ht Hf; [reflexivity|].
  inversion Ht as [|? ? He Ht']; subst.
  change (replay (e :: t) m) with (replay t (replay [e] m)).
  rewrite IH by assumption.
  destruct e; try reflexivity.
  cbn [writes_output] in He. subst. cbn. now rewrite lookup_insert_ne.
Qed.

(** *** The generator outside test mode *)

Lemma chat_requests_generate (t : list event) prompt :
  chat_requests (t ++ [EvGenerate prompt]) = chat_requests t.
Proof. unfold chat_requests. rewrite List.filter_app. cbn. now rewrite app_nil_r. Qed.

Lemma generate_paper_live_eq self c prompt w :
  test_mode self = false -> client self = Some c ->
  generate_paper env self prompt w
  = (match chat_create env (chat_requests (trace w)) (model self) (chat_messages prompt) with
     | Ok (first :: _) => Ok (extract_text first)
     | Ok [] => Raise IndexError
     | Raise e => Raise e
     end,
     {| files := files w;
        trace := trace w ++ [EvGenerate prompt; EvChat (model self) (chat_messages prompt)] |}).
Proof.
  intros Et Ec. unfold generate_paper, chat_completions_create, bind, emit, lift, ret.
  rewrite Et, Ec. cbn [files trace]. rewrite chat_requests_generate.
  fold (chat_messages prompt).
  destruct (chat_create env (chat_requests (trace w)) (model self) (chat_messages prompt))
    as [[|first others]|e]; rewrite <- app_assoc; reflexivity.
Qed.

Lemma generate_paper_first_event self prompt w :
  exists rest,
    trace (snd (generate_paper env self prompt w)) = trace w ++ EvGenerate prompt :: rest
    /\ (test_mode self = true -> rest = [])
    /\ (test_mode self = false -> is_Some (client self) ->
        rest = [EvChat (model self) (chat_messages prompt)]).
Proof.
  destruct (test_mode self) eqn:Et.
  - exists []. rewrite (runs_generate_test env self prompt w Et).
    split; [reflexivity|]. split; [reflexivity | discriminate].
  - destruct (client self) as [c|] eqn:Ec.
    + exists [EvChat (model self) (chat_messages prompt)].
      rewrite (generate_paper_live_eq self c prompt w Et Ec).
      split; [reflexivity|]. split; [discriminate | reflexivity].
    + exists []. unfold generate_paper, bind, emit, lift. rewrite Et, Ec.
      split; [reflexivity|]. split; [discriminate|]. intros _ [c Hc]. discriminate.
Qed.

(** *** Fetching *)

Lemma newlines_to_spaces_lacks (s : str) : lacks 10 (newlines_to_spaces s) = true.
Proof.
  induction s as [|c s IH]; [reflexivity|].
  cbn [newlines_to_spaces map lacks forallb]. fold (newlines_to_spaces s).
  fold (lacks 10 (newlines_to_spaces s)). rewrite IH, andb_true_r.
  destruct (c =? 10)%N eqn:E; [reflexivity|]. now rewrite E.
Qed.

Lemma substring_join (sep x : str) (l : list str) : x ∈ l -> substring x (join sep l).
Proof.
  induction l as [|y l IH]; intros Hin; [inversion Hin|].
  apply elem_of_cons in Hin as [-> | Hin].
  - destruct l; [apply substring_refl | apply substring_app_r, substring_refl].
  - destruct l as [|z l]; [inversion Hin|].
    change (join sep (y :: z :: l)) with (y ++ sep ++ join sep (z :: l)).
    now apply substring_app_l, substring_app_l, IH.
Qed.

(** *** What a generator call leaves alone *)

Lemma replay_no_write (t : list event) : forall (m : gmap str str),
  occurrences KWrite (map kind_of t) = 0%nat -> replay t m = m.
Proof.
  induction t as [|e t IH]; intros m H; [reflexivity|].
  change (replay (e :: t) m) with (replay t (replay [e] m)).
  cbn [map] in H. destruct e;
    try (rewrite occurrences_cons_ne in H by discriminate; now rewrite IH).
  rewrite occurrences_cons_eq in H. discriminate.
Qed.

Lemma generate_paper_files self prompt w :
  files (snd (generate_paper env self prompt w)) = files w.
Proof.
  destruct (steps_generate self prompt w) as [t [E [_ K]]]. rewrite E. cbn [files].
  apply replay_no_write.
  assert (map kind_of t `prefix_of` gen_kinds (test_mode self)) as Hp.
  { destruct (fst (generate_paper env self prompt w)); [now rewrite K | exact K]. }
  apply (occurrences_prefix KWrite) in Hp.
  assert (occurrences KWrite (gen_kinds (test_mode self)) = 0%nat) as H0
    by (destruct (test_mode self); reflexivity).
  lia.
Qed.

Lemma chat_requests_search (t : list event) query max_results :
  chat_requests (t ++ [EvSearch query max_results]) = chat_requests t.
Proof. unfold chat_requests. rewrite List.filter_app. cbn. now rewrite app_nil_r. Qed.

(** *** Test mode *)

Lemma runs_for_each_test self n : forall i w,
  test_mode self = true ->
  runs (for_each (iteration env self) (seq i n) dummy_paper) w dummy_paper
       (concat (map test_iteration (seq i n))).
Proof.
  induction n as [|n IH]; intros i w Et.
  - apply runs_ret.
  - cbn [seq map concat for_each].
    eapply runs_bind; [|now apply IH].
    unfold iteration, test_iteration.
    change [EvWrite file_name dummy_paper;
            EvPrint (feedback_line i (evaluate_paper dummy_paper 500));
            EvGenerate (refine_prompt dummy_paper (evaluate_paper dummy_paper 500))]
      with ([EvWrite file_name dummy_paper]
            ++ [EvPrint (feedback_line i (evaluate_paper dummy_paper 500))]
            ++ [EvGenerate (refine_prompt dummy_paper (evaluate_paper dummy_paper 500))]).
    eapply runs_bind; [apply runs_write, ascii_encodable, dummy_paper_ascii|].
    eapply runs_bind; [apply runs_print, ascii_encodable, feedback_line_ascii|].
    now apply runs_generate_test.
Qed.

Lemma runs_run_test self results w :
  test_mode self = true ->
  arxiv_results env default_query 5 = Ok results ->
  runs (run env self) w tt (test_run_events results (Z.to_nat (iterations self))).
Proof.
  intros Et Es. unfold run, fetch_latest_papers, test_run_events, range.
  change [EvSearch default_query 5; EvGenerate (base_prompt (map summary_of results))]
    with ([EvSearch default_query 5]
          ++ [EvGenerate (base_prompt (map summary_of results))]).
  rewrite <- !app_assoc.
  eapply runs_bind.
  { replace [EvSearch default_query 5] with ([EvSearch default_query 5] ++ [] : list event)
      by reflexivity.
    eapply runs_bind; [apply runs_search; exact Es | apply runs_ret]. }
  eapply runs_bind; [now apply runs_generate_test|].
  eapply runs_bind; [now apply runs_for_each_test|].
  change [EvPrint final_header; EvPrint dummy_paper; EvWrite file_name dummy_paper]
    with ([EvPrint final_header] ++ [EvPrint dummy_paper] ++ [EvWrite file_name dummy_paper]).
  eapply runs_bind; [apply runs_print, ascii_encodable, final_header_ascii|].
  eapply runs_bind; [apply runs_print | apply runs_write];
    apply ascii_encodable, dummy_paper_ascii.
Qed.

(** *** The feedback lines of any run *)

Lemma extend_app w t1 t2 : extend (extend w t1) t2 = extend w (t1 ++ t2).
Proof. unfold extend. cbn [files trace]. now rewrite replay_app, app_assoc. Qed.

Lemma extend_nil w : extend w [] = w.
Proof. destruct w. unfold extend. cbn. now rewrite app_nil_r. Qed.

Lemma bind_ok {A B} (m : M A) (f : A -> M B) w a w1 :
  m w = (Ok a, w1) -> bind m f w = f a w1.
Proof. intros E. unfold bind. now rewrite E. Qed.

Lemma bind_raise {A B} (m : M A) (f : A -> M B) w e w1 :
  m w = (Raise e, w1) -> bind m f w = (Raise e, w1).
Proof. intros E. unfold bind. now rewrite E. Qed.

Lemma feedback_printed_quiet i (t : list event) :
  occurrences KPrint (map kind_of t) = 0%nat -> feedback_printed i t.
Proof.
  intros H pre line post ->. rewrite map_app, occurrences_app in H.
  change (map kind_of (EvPrint line :: post)) with (KPrint :: map kind_of post) in H.
  rewrite occurrences_cons_eq in H. lia.
Qed.

Lemma feedback_printed_app i (t1 t2 : list event) :
  feedback_printed i t1 ->
  feedback_printed (i + occurrences KPrint (map kind_of t1)) t2 ->
  feedback_printed i (t1 ++ t2).
Proof.
  intros H1 H2 pre line post E.
  apply app_split in E as [[post1 [E _]] | [pre2 [-> E]]].
  - exact (H1 _ _ _ E).
  - destruct (H2 _ _ _ E) as [pre' [d [-> ->]]].
    exists (t1 ++ pre'), d. split; [now rewrite app_assoc|].
    f_equal. rewrite (map_app _ t1), occurrences_app. lia.
Qed.

Lemma feedback_printed_first n (t : list event) :
  feedback_printed 0 t -> first_feedback n t.
Proof. intros H pre line post E _. exact (H _ _ _ E). Qed.

Lemma first_feedback_app n (t1 t2 : list event) :
  feedback_printed 0 t1 -> occurrences KPrint (map kind_of t1) = n ->
  first_feedback n (t1 ++ t2).
Proof.
  intros H1 Hn pre line post E Hlt.
  apply app_split in E as [[post1 [E _]] | [pre2 [-> _]]].
  - exact (H1 _ _ _ E).
  - rewrite map_app, occurrences_app in Hlt. lia.
Qed.

Lemma generate_paper_quiet self prompt w :
  exists t,
    snd (generate_paper env self prompt w) = extend w t
    /\ occurrences KPrint (map kind_of t) = 0%nat.
Proof.
  destruct (steps_generate self prompt w) as [t [E [_ K]]]. exists t.
  split; [exact E|].
  assert (map kind_of t `prefix_of` gen_kinds (test_mode self)) as Hp.
  { destruct (fst (generate_paper env self prompt w)); [now rewrite K | exact K]. }
  apply (occurrences_prefix KPrint) in Hp.
  assert (occurrences KPrint (gen_kinds (test_mode self)) = 0%nat) as H0
    by (destruct (test_mode self); reflexivity).
  lia.
Qed.

(** One iteration under any provider behaviour: a draft that cannot be
    encoded empties the file and nothing is printed; otherwise the draft is
    written, then its feedback is printed. *)
Lemma iteration_any self i d w :
  exists t,
    snd (iteration env self i d w) = extend w t
    /\ feedback_printed i t
    /\ (forall d', fst (iteration env self i d w) = Ok d' ->
        occurrences KPrint (map kind_of t) = 1%nat).
Proof.
  unfold iteration, refine_paper.
  destruct (encodable (file_codec env) d) eqn:Ef.
  - assert (write_file env file_name d w = (Ok tt, extend w [EvWrite file_name d])) as Ew
      by (unfold write_file; now rewrite Ef).
    rewrite (bind_ok _ _ _ _ _ Ew).
    set (line := feedback_line i (evaluate_paper d 500)).
    assert (print env line (extend w [EvWrite file_name d])
            = (Ok tt, extend (extend w [EvWrite file_name d]) [EvPrint line])) as Ep.
    { unfold print.
      now rewrite (ascii_encodable _ _ (feedback_line_ascii i d 500)). }
    rewrite (bind_ok _ _ _ _ _ Ep), extend_app.
    match goal with |- context [generate_paper env self ?p ?w2] =>
      destruct (generate_paper_quiet self p w2) as [tg [Eg Hq]] end.
    exists (([EvWrite file_name d] ++ [EvPrint line]) ++ tg). split; [|split].
    + now rewrite Eg, extend_app.
    + apply feedback_printed_app.
      * intros pre l post E. destruct pre as [|e1 [|e2 pre]]; cbn [app] in E.
        -- discriminate.
        -- injection E as <- <- _. exists [], d. split; [reflexivity|].
           cbn. now rewrite Nat.add_0_r.
        -- injection E as _ _ E. now destruct pre.
      * now apply feedback_printed_quiet.
    + intros d' _. rewrite map_app, occurrences_app, Hq. reflexivity.
  - assert (write_file env file_name d w
            = (Raise UnicodeEncodeError, extend w [EvWrite file_name []])) as Ew
      by (unfold write_file; now rewrite Ef).
    rewrite (bind_raise _ _ _ _ _ Ew).
    exists [EvWrite file_name []]. split; [reflexivity|]. split.
    + now apply feedback_printed_quiet.
    + discriminate.
Qed.

Lemma for_each_any self n : forall i d w,
  exists t,
    snd (for_each (iteration env self) (seq i n) d w) = extend w t
    /\ feedback_printed i t
    /\ (forall d', fst (for_each (iteration env self) (seq i n) d w) = Ok d' ->
        occurrences KPrint (map kind_of t) = n).
Proof.
  induction n as [|n IH]; intros i d w.
  - exists []. cbn [seq for_each]. split; [now rewrite extend_nil|].
    split; [now apply feedback_printed_quiet | reflexivity].
  - cbn [seq for_each].
    destruct (iteration_any self i d w) as [t1 [E1 [F1 O1]]].
    destruct (iteration env self i d w) as [[d1|e] w1] eqn:Ei;
      cbn [fst snd] in E1, O1; subst w1.
    + rewrite (bind_ok _ _ _ _ _ Ei).
      destruct (IH (S i) d1 (extend w t1)) as [t2 [E2 [F2 O2]]].
      specialize (O1 d1 eq_refl).
      exists (t1 ++ t2). split; [|split].
      * now rewrite E2, extend_app.
      * apply feedback_printed_app; [exact F1|].
        rewrite O1. now replace (i + 1)%nat with (S i) by lia.
      * intros d' Hd'. rewrite map_app, occurrences_app, O1, (O2 d' Hd'). reflexivity.
    + rewrite (bind_raise _ _ _ _ _ Ei). exists t1. split; [reflexivity|].
      split; [exact F1 | discriminate].
Qed.

(** Whatever the providers do, each of the first N lines that a run prints
    is the feedback on the draft written just before it. *)
Lemma run_any self w :
  exists t,
    snd (run env self w) = extend w t
    /\ first_feedback (Z.to_nat (iterations self)) t.
Proof.
  unfold run, range.
  assert (forall (t0 : list event), occurrences KPrint (map kind_of t0) = 0%nat ->
            first_feedback (Z.to_nat (iterations self)) t0) as Hquiet
    by (intros t0 H0; now apply feedback_printed_first, feedback_printed_quiet).
  destruct (arxiv_results env default_query 5) as [results|e] eqn:Es.
  - assert (fetch_latest_papers env self 5 default_query w
            = (Ok (map summary_of results), extend w [EvSearch default_query 5])) as Ef.
    { unfold fetch_latest_papers, arxiv_client_results, bind, emit, lift, ret.
      cbn [files trace]. now rewrite Es. }
    rewrite (bind_ok _ _ _ _ _ Ef).
    set (w1 := extend w [EvSearch default_query 5]).
    destruct (generate_paper_quiet self (base_prompt (map summary_of results)) w1)
      as [tg [Eg Hq]].
    destruct (generate_paper env self (base_prompt (map summary_of results)) w1)
      as [[d0|e] w2] eqn:Eg'; cbn [snd] in Eg; subst w2.
    + rewrite (bind_ok _ _ _ _ _ Eg').
      destruct (for_each_any self (Z.to_nat (iterations self)) 0%nat d0 (extend w1 tg))
        as [tl [El [Fl Ol]]].
      assert (feedback_printed 0 (([EvSearch default_query 5] ++ tg) ++ tl)) as Fall.
      { apply feedback_printed_app.
        - apply feedback_printed_quiet. rewrite map_app, occurrences_app, Hq. reflexivity.
        - rewrite map_app, occurrences_app, Hq. exact Fl. }
      assert (occurrences KPrint (map kind_of ([EvSearch default_query 5] ++ tg)) = 0%nat)
        as Hq' by (rewrite map_app, occurrences_app, Hq; reflexivity).
      destruct (for_each (iteration env self) (seq 0 (Z.to_nat (iterations self))) d0
                  (extend w1 tg)) as [[d|e] w3] eqn:El'; cbn [fst snd] in El, Ol; subst w3.
      * rewrite (bind_ok _ _ _ _ _ El').
        assert (steps (bind (print env (nl ++ py "Final Version of the Paper:"))
                         (fun _ => bind (print env d)
                                     (fun _ => write_file env file_name d)))
                      ([KPrint] ++ [KPrint] ++ [KWrite])) as Hs.
        { apply steps_bind; [apply steps_print | intros _].
          apply steps_bind; [apply steps_print | intros _]. apply steps_write. }
        destruct (Hs (extend (extend w1 tg) tl)) as [tf [Etf _]].
        exists ((([EvSearch default_query 5] ++ tg) ++ tl) ++ tf). split.
        -- rewrite Etf. fold (extend (extend (extend w1 tg) tl) tf).
           unfold w1. rewrite !extend_app. now rewrite <- ?app_assoc.
        -- apply first_feedback_app; [exact Fall|].
           rewrite map_app, occurrences_app, Hq', (Ol d eq_refl). reflexivity.
      * rewrite (bind_raise _ _ _ _ _ El').
        exists (([EvSearch default_query 5] ++ tg) ++ tl). split.
        -- unfold w1. rewrite !extend_app. now rewrite <- ?app_assoc.
        -- now apply feedback_printed_first.
    + rewrite (bind_raise _ _ _ _ _ Eg').
      exists ([EvSearch default_query 5] ++ tg). split.
      * unfold w1. rewrite !extend_app. now rewrite <- ?app_assoc.
      * apply Hquiet. rewrite map_app, occurrences_app, Hq. reflexivity.
  - exists [EvSearch default_query 5]. split.
    + unfold fetch_latest_papers, arxiv_client_results, bind, emit, lift.
      cbn [files trace]. now rewrite Es.
    + now apply Hquiet.
Qed.

End MoreRunFacts.

(** ** The example providers *)

(** A reply with a lone surrogate meets no encoding: the run stops at the
    first write, which leaves the output file empty. *)
Example run_unencodable_draft :
  run garbled (init (py "grok-2-latest") 1 false None) empty_world
  = (Raise UnicodeEncodeError,
     {| files := <[file_name := []]> ∅;
        trace := [ EvSearch default_query 5;
                   EvGenerate (base_prompt [summary_of one_paper]);
                   EvChat (py "grok-2-latest")
                     (chat_messages (base_prompt [summary_of one_paper]));
                   EvWrite file_name [] ] |}).
Proof. vm_compute. reflexivity. Qed.


Lemma echo_reply_ascii (n : nat) : ascii_only (echo_reply n) = true.
Proof. unfold echo_reply. now rewrite !ascii_only_app, show_Z_ascii. Qed.

Lemma online_replies_encodable : replies_encodable online.
Proof.
  intros n model messages first others [= <- _].
  split; apply ascii_encodable, echo_reply_ascii.
Qed.

(** ** Sanity checks on concrete inputs *)

Example show_Z_examples :
  show_Z 0 = py "0" /\ show_Z 34 = py "34" /\ show_Z (-3) = py "-3".
Proof. repeat split; reflexivity. Qed.

Example split_example :
  split (py "  Proposed Method:" ++ nl ++ py " D ") = [py "Proposed"; py "Method:"; py "D"].
Proof. reflexivity. Qed.

Example extract_text_with_code_block :
  extract_text (py "Some text" ++ nl ++ py "```python" ++ nl ++ py "Title: Test Paper" ++ nl
                ++ py "Abstract: Test Abstract" ++ nl ++ py "```")
  = py "Title: Test Paper" ++ nl ++ py "Abstract: Test Abstract".
Proof. vm_compute. reflexivity. Qed.

Example extract_text_without_code_block :
  extract_text (py "Title: Direct Text Paper" ++ nl ++ py "Abstract: Direct Abstract")
  = py "Title: Direct Text Paper" ++ nl ++ py "Abstract: Direct Abstract".
Proof. vm_compute. reflexivity. Qed.

Example extract_text_first_fence_wins :
  extract_text (py "```" ++ nl ++ py "foo" ++ nl ++ py "```python" ++ nl ++ py "bar" ++ nl
                ++ py "```" ++ nl)
  = py "foo".
Proof. vm_compute. reflexivity. Qed.

Example evaluate_dummy_paper :
  evaluate_paper dummy_paper 500 = py "Success! Paper length is 34 words.".
Proof. vm_compute. reflexivity. Qed.

Example evaluate_both_failures :
  evaluate_paper (py "a b c") 1
  = py "Paper is too long by 2 words. Missing sections: Title:, Abstract:, Introduction:, Proposed Method:, Conclusion:.".
Proof. vm_compute. reflexivity. Qed.

(** With no provider in reach the run stops at the search request, also in
    test mode, and writes nothing. *)
Example run_offline_test_mode :
  run offline (init (py "grok-2-latest") 1 true None) empty_world
  = (Raise (ProviderError (py "connection refused")),
     {| files := ∅; trace := [EvSearch default_query 5] |}).
Proof. reflexivity. Qed.

(** * The properties of the specification *)

(** C1. Test mode does not replace every provider call: whatever the
    providers and the configuration, the first thing a run in test mode does
    is to send the search request of [fetch_latest_papers]. *)
Theorem run_test_mode_contacts_search_provider
    (env : providers) (model : str) (n : Z) (key : option str) (w : world) :
  exists rest,
    trace (snd (run env (init model n true key) w))
    = trace w ++ EvSearch default_query 5 :: rest.
Proof.
  destruct (arxiv_results env default_query 5) as [results|e] eqn:E.
  - destruct (runs_run env (init model n true key) results w E) as [g [d0 [t [d [H _]]]]];
      [now left | now left |].
    unfold runs in H. rewrite H. cbn [snd trace app]. eauto.
  - exists []. unfold run, fetch_latest_papers, arxiv_client_results, bind, emit, lift.
    cbn [files trace]. rewrite E. reflexivity.
Qed.

(** C2, as the code has it. The text of the scenario has eleven
    whitespace-delimited tokens, ["Proposed Method:"] being two of them, and
    the evaluator reports eleven words. *)
Theorem evaluate_paper_five_sections :
  split five_sections
  = [ py "Title:"; py "A"; py "Abstract:"; py "B"; py "Introduction:"; py "C";
      py "Proposed"; py "Method:"; py "D"; py "Conclusion:"; py "E" ]
  /\ evaluate_paper five_sections 500 = py "Success! Paper length is 11 words.".
Proof. split; vm_compute; reflexivity. Qed.

(** C2, as stated: the evaluator does not answer "10 words" on that text. *)
Lemma evaluate_paper_five_sections_not_10 :
  evaluate_paper five_sections 500 <> py "Success! Paper length is 10 words.".
Proof. vm_compute. discriminate. Qed.

(** C4. A text within the word limit that holds the five markers is
    answered with the success message, which contains "Success!". *)
Theorem evaluate_paper_success (t : str) (max_words : Z) :
  word_count t <= max_words ->
  (forall m, m ∈ required_sections -> substring m t) ->
  substring (py "Success!") (evaluate_paper t max_words)
  /\ evaluate_paper t max_words
     = py "Success! Paper length is " ++ show_Z (word_count t) ++ py " words.".
Proof.
  intros Hw Hm. apply missing_sections_nil in Hm.
  rewrite evaluate_paper_cases, Hm.
  destruct (max_words <? word_count t) eqn:E; [apply Z.ltb_lt in E; lia|].
  split; [|reflexivity].
  exists [], (py " Paper length is " ++ show_Z (word_count t) ++ py " words.").
  reflexivity.
Qed.

Lemma evaluate_paper_success_witness :
  substring (py "Success!") (evaluate_paper five_sections 500)
  /\ evaluate_paper five_sections 500
     = py "Success! Paper length is " ++ show_Z (word_count five_sections) ++ py " words.".
Proof.
  apply (evaluate_paper_success five_sections 500).
  - apply Z.leb_le. vm_compute. reflexivity.
  - apply missing_sections_nil. vm_compute. reflexivity.
Defined.

(** C5. When a required marker is missing, the feedback contains
    "Missing sections: " followed by the missing markers joined by ", " and a
    full stop; the markers listed are exactly the required markers that do
    not occur in the text, in the order of the required list. The text of the
    scenario gets the three markers it lacks. *)
Theorem evaluate_paper_missing (t : str) (max_words : Z) :
  (exists m, m ∈ required_sections /\ ~ substring m t) ->
  exists listed,
    substring (py "Missing sections: " ++ join (py ", ") listed ++ py ".")
              (evaluate_paper t max_words)
    /\ (forall m, m ∈ listed <-> m ∈ required_sections /\ ~ substring m t)
    /\ sublist listed required_sections
    /\ substring (py "Missing sections: Introduction:, Proposed Method:, Conclusion:.")
                 (evaluate_paper two_sections 500).
Proof.
  intros [m Hm]. exists (missing_sections t).
  split; [|split; [|split]].
  - rewrite evaluate_paper_cases. apply missing_sections_spec in Hm.
    destruct (missing_sections t) as [|x l] eqn:E; [inversion Hm|].
    fold (missing_msg (x :: l)).
    destruct (max_words <? word_count t).
    + apply substring_app_l, substring_app_l, substring_refl.
    + apply substring_refl.
  - apply missing_sections_spec.
  - apply missing_sections_sublist.
  - apply contains_spec. vm_compute. reflexivity.
Qed.

Lemma evaluate_paper_missing_witness :
  exists listed,
    substring (py "Missing sections: " ++ join (py ", ") listed ++ py ".")
              (evaluate_paper two_sections 500)
    /\ (forall m, m ∈ listed <-> m ∈ required_sections /\ ~ substring m two_sections)
    /\ sublist listed required_sections
    /\ substring (py "Missing sections: Introduction:, Proposed Method:, Conclusion:.")
                 (evaluate_paper two_sections 500).
Proof.
  apply (evaluate_paper_missing two_sections 500).
  exists (py "Introduction:"). split.
  - apply list_elem_of_In. vm_compute. tauto.
  - apply contains_false. vm_compute. reflexivity.
Defined.

(** C6. A text over the word limit is told by how many words: the
    feedback contains "Paper is too long by N words." with N the word count
    minus the limit. *)
Theorem evaluate_paper_too_long (t : str) (max_words : Z) :
  max_words < word_count t ->
  substring (py "Paper is too long by " ++ show_Z (word_count t - max_words) ++ py " words.")
            (evaluate_paper t max_words).
Proof.
  intros H. apply Z.ltb_lt in H. rewrite evaluate_paper_cases, H.
  fold (too_long_msg (word_count t - max_words)).
  destruct (missing_sections t).
  - apply substring_refl.
  - apply substring_app_r, substring_refl.
Qed.

Lemma evaluate_paper_too_long_witness :
  substring (py "Paper is too long by " ++ show_Z (word_count five_sections - 4) ++ py " words.")
            (evaluate_paper five_sections 4).
Proof.
  apply (evaluate_paper_too_long five_sections 4).
  apply Z.ltb_lt. vm_compute. reflexivity.
Defined.

(** When the search provider answers the request that a run in test mode
    still sends, a run with one iteration ends normally and
    [generated_paper.txt] then holds the canned paper of the generator,
    character for character. *)
Lemma run_test_mode_one_iteration_answered
    (env : providers) (model : str) (key : option str) (w : world)
    (results : list arxiv_result) :
  arxiv_results env default_query 5 = Ok results ->
  exists w',
    run env (init model 1 true key) w = (Ok tt, w')
    /\ files w' !! file_name = Some dummy_paper.
Proof.
  intros Es.
  destruct (runs_run_trace env (init model 1 true key) results w Es)
    as [t [d [H [_ [Hf Hd]]]]]; [now left | now left |].
  eexists. split; [exact H|]. cbn [files]. rewrite Hf. f_equal. now apply Hd.
Qed.

(** C3. The run in test mode with one iteration does not always end with
    the canned paper in [generated_paper.txt]: it sends the search request
    first, and with the search provider out of reach, the case test mode is
    there for, it raises at that request. No draft is generated, nothing is
    printed and the output file is not even created. *)
Theorem run_test_mode_one_iteration_offline :
  run offline (init (py "grok-2-latest") 1 true None) empty_world
  = (Raise (ProviderError (py "connection refused")),
     {| files := ∅; trace := [EvSearch default_query 5] |})
  /\ files (snd (run offline (init (py "grok-2-latest") 1 true None) empty_world))
       !! file_name = None.
Proof. split; reflexivity. Qed.

(** C7. [extract_text] returns the stripped body of a reply
    [pre\n```python\nBODY\n```\npost] whose two fences are its only ones,
    returns the stripped input when the input holds no fence, and is
    idempotent. *)
Theorem extract_text_round_trip :
  (forall pre body post,
      one_fenced_block pre body post ->
      extract_text (fenced_reply pre body post) = strip body)
  /\ (forall x, ~ substring fence x -> extract_text x = strip x)
  /\ (forall x, extract_text (extract_text x) = extract_text x).
Proof.
  split; [|split].
  - intros pre body post [Hpre [Hbody _]]. now apply extract_text_fenced_reply.
  - intros x Hx. apply extract_text_no_block. intros H. now apply Hx, has_block_fence.
  - apply extract_text_idem.
Qed.

Lemma extract_text_round_trip_witness :
  extract_text (fenced_reply (py "Here you go:") (py "  Title: T  ") (py "Bye."))
  = strip (py "  Title: T  ")
  /\ extract_text (py " no code here ") = strip (py " no code here ").
Proof.
  split.
  - apply (proj1 extract_text_round_trip).
    repeat split; apply contains_false; vm_compute; reflexivity.
  - apply (proj1 (proj2 extract_text_round_trip)).
    apply contains_false. vm_compute. reflexivity.
Defined.

(** C8. In test mode [generate_paper] returns the dummy paper whatever
    the prompt, without a request to the chat provider; none of the five
    required markers is missing from the dummy paper. *)
Theorem generate_paper_test_mode
    (env : providers) (model : str) (n : Z) (key : option str)
    (p1 p2 : str) (w : world) :
  let self := init model n true key in
  generate_paper env self p1 w
  = (Ok dummy_paper, {| files := files w; trace := trace w ++ [EvGenerate p1] |})
  /\ fst (generate_paper env self p1 w) = fst (generate_paper env self p2 w)
  /\ fst (generate_paper env self p2 w) = Ok dummy_paper
  /\ missing_sections dummy_paper = [].
Proof. cbv zeta. repeat split. Qed.



(** C10. In every run, whatever the providers answer and whether the run
    returns or raises, when the feedback line of an iteration is printed,
    [generated_paper.txt] holds the draft that the printed feedback
    evaluates: the draft is written before it is evaluated, and a draft that
    cannot be written is never evaluated. A run that returns has printed the
    feedback line of every iteration. *)
Theorem feedback_describes_written_draft
    (env : providers) (model : str) (N : Z) (tm : bool) (key : option str) (w : world) :
  exists t,
    snd (run env (init model N tm key) w)
    = {| files := replay t (files w); trace := trace w ++ t |}
    /\ (forall pre line post,
          t = pre ++ EvPrint line :: post -> count KPrint pre < N ->
          exists draft,
            replay pre (files w) !! file_name = Some draft
            /\ line = py "Iteration " ++ show_Z (count KPrint pre + 1) ++ py " feedback: "
                      ++ evaluate_paper draft 500)
    /\ (forall u, fst (run env (init model N tm key) w) = Ok u ->
        forall i, 0 <= i < N ->
          exists pre line post, t = pre ++ EvPrint line :: post /\ count KPrint pre = i).
Proof.
  destruct (run_any env (init model N tm key) w) as [t [E F]].
  cbn [iterations init] in F.
  exists t. split; [exact E|]. split.
  - intros pre line post Et Hlt. unfold count in Hlt.
    destruct (F pre line post Et) as [pre' [dk [-> ->]]]; [lia|].
    exists dk. split; [apply replay_lookup_write | reflexivity].
  - intros u Hu i Hi.
    destruct (steps_run env (init model N tm key) w) as [t' [E' [_ K]]].
    rewrite Hu in K. cbn [test_mode iterations init] in K.
    assert (t' = t) as ->.
    { rewrite E in E'. unfold extend in E'. injection E' as _ E'.
      now apply app_inv_head in E'. }
    destruct (occurrences_run_kinds tm (Z.to_nat N)) as [_ [_ [Op _]]].
    rewrite <- K in Op.
    destruct (occurrences_split KPrint t (Z.to_nat i)) as [pre [e [post [Et [Ek Ho]]]]];
      [lia|].
    destruct e as [| | |line|]; try discriminate.
    exists pre, line, post. split; [exact Et|]. unfold count. rewrite Ho. lia.
Qed.

Lemma feedback_describes_written_draft_witness :
  exists t,
    snd (run online (init (py "grok-2-latest") 2 false None) empty_world)
    = {| files := replay t (files empty_world); trace := trace empty_world ++ t |}
    /\ (forall pre line post,
          t = pre ++ EvPrint line :: post -> count KPrint pre < 2 ->
          exists draft,
            replay pre (files empty_world) !! file_name = Some draft
            /\ line = py "Iteration " ++ show_Z (count KPrint pre + 1) ++ py " feedback: "
                      ++ evaluate_paper draft 500)
    /\ (forall u, fst (run online (init (py "grok-2-latest") 2 false None) empty_world)
                  = Ok u ->
        forall i, 0 <= i < 2 ->
          exists pre line post, t = pre ++ EvPrint line :: post /\ count KPrint pre = i).
Proof.
  exact (feedback_describes_written_draft online (py "grok-2-latest") 2 false None
           empty_world).
Defined.

(** * Further properties of the code *)

(** X1. The feedback contains "Success!" exactly when the text is within
    the word limit and holds all five markers: a feedback that reports a
    failure never contains it. *)
Theorem evaluate_paper_success_iff (t : str) (max_words : Z) :
  substring (py "Success!") (evaluate_paper t max_words)
  <-> word_count t <= max_words /\ (forall m, m ∈ required_sections -> substring m t).
Proof.
  split.
  - intros Hs.
    destruct (max_words <? word_count t) eqn:E.
    + apply (lacks_substring 83%N) in Hs; [discriminate|].
      apply failure_lacks_S. now left.
    + apply Z.ltb_ge in E. split; [exact E|]. apply missing_sections_nil.
      destruct (missing_sections t) as [|m ms] eqn:Em; [reflexivity|].
      apply (lacks_substring 83%N) in Hs; [discriminate|].
      apply failure_lacks_S. right. congruence.
  - intros [Hw Hm]. apply missing_sections_nil in Hm.
    rewrite evaluate_paper_cases, Hm.
    destruct (max_words <? word_count t) eqn:E; [apply Z.ltb_lt in E; lia|].
    exists [], (py " Paper length is " ++ show_Z (word_count t) ++ py " words.").
    reflexivity.
Qed.

(** X2. Whatever the text and the limit, the feedback is not empty, has
    no whitespace at either end and holds no newline: it fits on the line
    that [run] prints. *)
Theorem evaluate_paper_one_clean_line (t : str) (max_words : Z) :
  evaluate_paper t max_words <> []
  /\ strip (evaluate_paper t max_words) = evaluate_paper t max_words
  /\ 10%N ∉ evaluate_paper t max_words.
Proof.
  split; [apply feedback_not_empty|]. split.
  - unfold evaluate_paper. apply strip_idem.
  - apply lacks_spec, feedback_lacks_newline.
Qed.

(** X3. Markers are looked up as plain substrings, so text added before
    or after a paper never makes a marker missing: the markers reported for
    the longer text are among those reported for the paper, in the same
    order. *)
Theorem missing_sections_shrinks (pre t post : str) :
  sublist (missing_sections (pre ++ t ++ post)) (missing_sections t).
Proof.
  unfold missing_sections. apply filter_sublist. intros m H.
  apply negb_true_iff in H. apply negb_true_iff.
  destruct (contains m t) eqn:E; [|reflexivity].
  apply contains_spec in E.
  assert (substring m (pre ++ t ++ post)) as Hs
    by (now apply substring_app_l, substring_app_r).
  apply contains_spec in Hs. congruence.
Qed.

(** X4. A text of whitespace only, the empty text included, has no
    word and lacks all five markers: the evaluator lists the five, after the
    overflow only when the limit is negative. *)
Theorem evaluate_paper_blank (t : str) (max_words : Z) :
  blank t = true ->
  word_count t = 0
  /\ evaluate_paper t max_words
     = (if max_words <? 0
        then py "Paper is too long by " ++ show_Z (- max_words) ++ py " words. "
        else [])
       ++ py "Missing sections: Title:, Abstract:, Introduction:, Proposed Method:, Conclusion:.".
Proof.
  intros Hb.
  assert (word_count t = 0) as Hw by (unfold word_count; now rewrite split_blank).
  split; [exact Hw|].
  rewrite evaluate_paper_cases, Hw, (missing_sections_blank t Hb).
  destruct (max_words <? 0); [|reflexivity].
  unfold too_long_msg. rewrite Z.sub_0_l, <- !app_assoc. reflexivity.
Qed.

Lemma evaluate_paper_blank_witness :
  word_count (py "  " ++ nl) = 0
  /\ evaluate_paper (py "  " ++ nl) (-3)
     = (if -3 <? 0
        then py "Paper is too long by " ++ show_Z (- -3) ++ py " words. "
        else [])
       ++ py "Missing sections: Title:, Abstract:, Introduction:, Proposed Method:, Conclusion:.".
Proof.
  apply (evaluate_paper_blank (py "  " ++ nl) (-3)). reflexivity.
Defined.

(** X5. The words that [evaluate_paper] counts are non-empty and free
    of whitespace, and only they matter to the count: joining them again
    with single spaces gives a text with the same words. *)
Theorem word_count_ignores_layout (t : str) :
  Forall word (split t)
  /\ split (join [32%N] (split t)) = split t
  /\ word_count (join [32%N] (split t)) = word_count t.
Proof.
  assert (Forall word (split t)) as H by (now apply split_go_words).
  split; [exact H|].
  assert (split (join [32%N] (split t)) = split t) as E by (now apply split_join_words).
  split; [exact E|]. unfold word_count. now rewrite E.
Qed.

(** X6. What [extract_text] returns is a piece of its input, has no
    whitespace at either end, and holds no block the pattern could match
    again. *)
Theorem extract_text_result (x : str) :
  substring (extract_text x) x
  /\ strip (extract_text x) = extract_text x
  /\ Re.search fence_re (extract_text x) = None.
Proof.
  split; [apply extract_text_substring|]. split.
  - unfold extract_text. destruct (Re.search fence_re x) as [[b|]|]; apply strip_idem.
  - apply search_none, extract_text_leaves_no_block.
Qed.

(** X7. A reply whose fence is never closed by a newline and a fence is
    returned whole, stripped, opening fence included. *)
Theorem extract_text_unclosed (x : str) :
  ~ substring close x -> extract_text x = strip x.
Proof.
  intros H. apply extract_text_no_block. intros Hb. now apply H, has_block_close.
Qed.

Lemma extract_text_unclosed_witness :
  extract_text (py "```python" ++ nl ++ py "Title: T ")
  = strip (py "```python" ++ nl ++ py "Title: T ").
Proof.
  apply (extract_text_unclosed (py "```python" ++ nl ++ py "Title: T ")).
  apply contains_false. vm_compute. reflexivity.
Defined.

(** X8. The first block wins and its tag is optional: when no fence
    occurs before the block or inside it, the stripped body is returned
    whether the opening fence is bare or tagged [python], whether the block
    starts the reply or follows a line of it, and whatever comes after the
    closing fence, further blocks included. *)
Theorem extract_text_first_block (pre tag body post : str) :
  tag = [] \/ tag = py "python" ->
  ~ substring fence pre ->
  ~ substring fence body ->
  extract_text (fence ++ tag ++ nl ++ body ++ nl ++ fence ++ post) = strip body
  /\ extract_text (pre ++ nl ++ fence ++ tag ++ nl ++ body ++ nl ++ fence ++ post)
     = strip body.
Proof.
  intros Ht Hpre Hbody.
  pose proof (extract_text_block_at_start tag body post Ht Hbody) as E.
  split; [exact E|]. rewrite extract_text_skip; [exact E | exact Hpre |].
  exists [], tag, body, post. split; [reflexivity | exact Ht].
Qed.

Lemma extract_text_first_block_witness :
  extract_text (fence ++ [] ++ nl ++ py " one " ++ nl ++ fence
                ++ (nl ++ py "```python" ++ nl ++ py "two" ++ nl ++ py "```"))
  = strip (py " one ")
  /\ extract_text (py "Sure:" ++ nl ++ fence ++ [] ++ nl ++ py " one " ++ nl ++ fence
                   ++ (nl ++ py "```python" ++ nl ++ py "two" ++ nl ++ py "```"))
     = strip (py " one ").
Proof.
  apply (extract_text_first_block (py "Sure:") [] (py " one ")
           (nl ++ py "```python" ++ nl ++ py "two" ++ nl ++ py "```")).
  - left. reflexivity.
  - apply contains_false. vm_compute. reflexivity.
  - apply contains_false. vm_compute. reflexivity.
Defined.

(** X9. Only a bare fence or a fence tagged exactly [python] opens a
    block. A reply whose single block carries another tag (a non-empty tag
    without newline or backtick, other than [python]) is returned whole,
    stripped, fences included. *)
Theorem extract_text_other_tag (pre tag body post : str) :
  tag <> [] -> 10%N ∉ tag -> 96%N ∉ tag -> tag <> py "python" ->
  ~ substring fence pre -> ~ substring fence body -> ~ substring close post ->
  extract_text (fence ++ tag ++ nl ++ body ++ nl ++ fence ++ post)
  = strip (fence ++ tag ++ nl ++ body ++ nl ++ fence ++ post)
  /\ extract_text (pre ++ nl ++ fence ++ tag ++ nl ++ body ++ nl ++ fence ++ post)
     = strip (pre ++ nl ++ fence ++ tag ++ nl ++ body ++ nl ++ fence ++ post).
Proof.
  intros Hne Hnl Hbt Hpy Hpre Hbody Hpost.
  pose proof (extract_text_other_tag_at_start tag body post Hne Hnl Hbt Hpy Hbody Hpost) as E.
  split; unfold extract_text.
  - now rewrite E.
  - now rewrite search_skip, E by exact Hpre.
Qed.

Lemma extract_text_other_tag_witness :
  extract_text (fence ++ py "python3" ++ nl ++ py "x = 1" ++ nl ++ fence ++ nl)
  = strip (fence ++ py "python3" ++ nl ++ py "x = 1" ++ nl ++ fence ++ nl)
  /\ extract_text (py "Code:" ++ nl ++ fence ++ py "python3" ++ nl ++ py "x = 1" ++ nl
                   ++ fence ++ nl)
     = strip (py "Code:" ++ nl ++ fence ++ py "python3" ++ nl ++ py "x = 1" ++ nl
              ++ fence ++ nl).
Proof.
  apply (extract_text_other_tag (py "Code:") (py "python3") (py "x = 1") nl).
  - discriminate.
  - apply lacks_spec. reflexivity.
  - apply lacks_spec. reflexivity.
  - discriminate.
  - apply contains_false. vm_compute. reflexivity.
  - apply contains_false. vm_compute. reflexivity.
  - apply contains_false. vm_compute. reflexivity.
Defined.

Example extract_text_other_tag_value :
  extract_text (py "```python3" ++ nl ++ py "x = 1" ++ nl ++ py "```" ++ nl)
  = py "```python3" ++ nl ++ py "x = 1" ++ nl ++ py "```".
Proof. vm_compute. reflexivity. Qed.

(** X10. Outside test mode a generator call sends exactly one chat
    request, carrying the model name, the fixed system message and the prompt
    as user message, and touches no file. It returns the first choice of the
    answer passed through [extract_text] and ignores the other choices; an
    answer without choices raises [IndexError]; an error of the provider is
    passed on as it is. *)
Theorem generate_paper_live
    (env : providers) (model : str) (n : Z) (key : option str) (prompt : str) (w : world) :
  generate_paper env (init model n false key) prompt w
  = (match chat_create env (chat_requests (trace w)) model
             [ {| role := py "system"; content := py "You are an AI research paper generator." |};
               {| role := py "user"; content := prompt |} ] with
     | Ok (first :: _) => Ok (extract_text first)
     | Ok [] => Raise IndexError
     | Raise e => Raise e
     end,
     {| files := files w;
        trace := trace w ++ [EvGenerate prompt; EvChat model (chat_messages prompt)] |}).
Proof.
  apply (generate_paper_live_eq env (init model n false key)
           {| api_key := key; base_url := py "https://api.x.ai/v1" |} prompt w);
    reflexivity.
Qed.

(** X11. [refine_paper] is one generator call on a prompt that holds
    the feedback and the paper verbatim; outside test mode that prompt is the
    user message of the request. In test mode the draft and the feedback are
    ignored: the result is the dummy paper. *)
Theorem refine_paper_prompt
    (env : providers) (model : str) (n : Z) (tm : bool) (key : option str)
    (paper_text feedback : str) (w : world) :
  trace (snd (refine_paper env (init model n tm key) paper_text feedback w))
  = trace w ++ EvGenerate (refine_prompt paper_text feedback)
      :: (if tm then []
          else [EvChat model
                  [ {| role := py "system";
                       content := py "You are an AI research paper generator." |};
                    {| role := py "user";
                       content := refine_prompt paper_text feedback |} ]])
  /\ substring feedback (refine_prompt paper_text feedback)
  /\ substring paper_text (refine_prompt paper_text feedback)
  /\ fst (refine_paper env (init model n true key) paper_text feedback w) = Ok dummy_paper.
Proof.
  split; [|split; [|split]].
  - change (refine_paper env (init model n tm key) paper_text feedback w)
      with (generate_paper env (init model n tm key) (refine_prompt paper_text feedback) w).
    destruct (generate_paper_first_event env (init model n tm key)
                (refine_prompt paper_text feedback) w) as [rest [E [Ht Hf]]].
    rewrite E. destruct tm.
    + now rewrite Ht.
    + rewrite Hf; [reflexivity | reflexivity | eexists; reflexivity].
  - unfold refine_prompt. apply substring_app_l, substring_app_l, substring_app_r.
    apply substring_refl.
  - unfold refine_prompt. do 7 apply substring_app_l. apply substring_app_r.
    apply substring_refl.
  - reflexivity.
Qed.

(** X12. When the search provider answers, [fetch_latest_papers] sends
    one search request, touches no file and returns one summary per result,
    in the provider's order: title and link as given, and an abstract of the
    same length and the same words as the summary, without any newline. It
    does so in test mode too. *)
Theorem fetch_latest_papers_summaries
    (env : providers) (self : agent) (max_results : Z) (query : str) (w : world)
    (results : list arxiv_result) :
  arxiv_results env query max_results = Ok results ->
  exists papers,
    fetch_latest_papers env self max_results query w
    = (Ok papers, {| files := files w; trace := trace w ++ [EvSearch query max_results] |})
    /\ Forall2 (fun r p =>
                  title p = r_title r /\ link p = r_entry_id r
                  /\ (10%N ∉ abstract p)
                  /\ length (abstract p) = length (r_summary r)
                  /\ split (abstract p) = split (r_summary r))
               results papers.
Proof.
  intros E. exists (map summary_of results). split.
  - unfold fetch_latest_papers, arxiv_client_results, bind, emit, lift, ret.
    cbn [files trace]. now rewrite E.
  - clear E. induction results as [|r rs IH]; [constructor|].
    cbn [map]. constructor; [|exact IH].
    cbn [summary_of title link abstract]. repeat split.
    + apply lacks_spec, newlines_to_spaces_lacks.
    + unfold newlines_to_spaces. apply length_map.
    + apply split_go_newlines_to_spaces.
Qed.

Lemma fetch_latest_papers_summaries_witness :
  exists papers,
    fetch_latest_papers online (init (py "grok-2-latest") 1 true None) 5 default_query
      empty_world
    = (Ok papers, {| files := files empty_world;
                     trace := trace empty_world ++ [EvSearch default_query 5] |})
    /\ Forall2 (fun r p =>
                  title p = r_title r /\ link p = r_entry_id r
                  /\ (10%N ∉ abstract p)
                  /\ length (abstract p) = length (r_summary r)
                  /\ split (abstract p) = split (r_summary r))
               [one_paper] papers.
Proof.
  apply (fetch_latest_papers_summaries online (init (py "grok-2-latest") 1 true None)
           5 default_query empty_world [one_paper]).
  reflexivity.
Defined.

(** X13. The first prompt of a run holds, for every fetched paper, its
    title and its abstract in the form "Title: ...", newline,
    "Abstract: ...". *)
Theorem base_prompt_holds_every_paper (latest_papers : list paper_summary)
    (paper : paper_summary) :
  paper ∈ latest_papers ->
  substring (py "Title: " ++ title paper ++ nl ++ py "Abstract: " ++ abstract paper)
            (base_prompt latest_papers).
Proof.
  intros Hin. unfold base_prompt. apply substring_app_l, substring_app_l, substring_app_r.
  apply substring_join. apply list_elem_of_In.
  apply (in_map (fun paper => py "Title: " ++ title paper ++ nl
                              ++ py "Abstract: " ++ abstract paper)).
  now apply list_elem_of_In.
Qed.

Lemma base_prompt_holds_every_paper_witness :
  substring (py "Title: " ++ title (summary_of one_paper) ++ nl
             ++ py "Abstract: " ++ abstract (summary_of one_paper))
            (base_prompt [summary_of one_paper; summary_of one_paper]).
Proof.
  apply (base_prompt_holds_every_paper [summary_of one_paper; summary_of one_paper]
           (summary_of one_paper)).
  left.
Defined.

(** X14. When the search request raises, the run stops there with that
    error, in test mode as in normal mode: no generator call, nothing
    printed, no file written. *)
Theorem run_search_failure (env : providers) (self : agent) (w : world) (e : error) :
  arxiv_results env default_query 5 = Raise e ->
  run env self w
  = (Raise e, {| files := files w; trace := trace w ++ [EvSearch default_query 5] |}).
Proof.
  intros E. unfold run, fetch_latest_papers, arxiv_client_results, bind, emit, lift.
  cbn [files trace]. now rewrite E.
Qed.

Lemma run_search_failure_witness :
  run offline (init (py "grok-2-latest") 3 true None) empty_world
  = (Raise (ProviderError (py "connection refused")),
     {| files := files empty_world;
        trace := trace empty_world ++ [EvSearch default_query 5] |}).
Proof.
  apply (run_search_failure offline (init (py "grok-2-latest") 3 true None) empty_world
           (ProviderError (py "connection refused"))).
  reflexivity.
Defined.

(** X15. Whatever the providers answer, a run goes through the fixed
    sequence search, generate, N times (write, print, generate), print,
    print, write, with a chat request after each generator call outside test
    mode. A run that returns has done all of it; a run that raises has done a
    beginning of it. *)
Theorem run_follows_fixed_sequence (env : providers) (self : agent) (w : world) :
  exists t,
    snd (run env self w) = {| files := replay t (files w); trace := trace w ++ t |}
    /\ match fst (run env self w) with
       | Ok _ => map kind_of t = run_kinds (test_mode self) (Z.to_nat (iterations self))
       | Raise _ =>
           map kind_of t `prefix_of` run_kinds (test_mode self) (Z.to_nat (iterations self))
       end.
Proof.
  destruct (steps_run env self w) as [t [E [_ K]]]. now exists t.
Qed.

(** X16. A run in test mode never sends a chat request, whatever the
    providers do and however many iterations it makes. *)
Theorem run_test_mode_no_chat_request
    (env : providers) (model : str) (N : Z) (key : option str) (w : world) :
  exists t,
    snd (run env (init model N true key) w)
    = {| files := replay t (files w); trace := trace w ++ t |}
    /\ count KChat t = 0.
Proof.
  destruct (steps_run env (init model N true key) w) as [t [E [_ K]]].
  exists t. split; [exact E|].
  cbn [test_mode iterations init] in K.
  assert (map kind_of t `prefix_of` run_kinds true (Z.to_nat N)) as Hp.
  { destruct (fst (run env (init model N true key) w)); [now rewrite K | exact K]. }
  apply (occurrences_prefix KChat) in Hp.
  destruct (occurrences_run_kinds true (Z.to_nat N)) as [_ [_ [_ [_ Hc]]]].
  unfold count. lia.
Qed.

(** X17. A run writes to [generated_paper.txt] only: every other file is
    after the run what it was before, whether the run returns or raises. *)
Theorem run_leaves_other_files (env : providers) (self : agent) (w : world) (f : str) :
  f <> file_name ->
  files (snd (run env self w)) !! f = files w !! f.
Proof.
  intros Hf. destruct (steps_run env self w) as [t [E [F _]]].
  rewrite E. cbn [files]. now apply replay_frame.
Qed.

Lemma run_leaves_other_files_witness :
  files (snd (run online (init (py "grok-2-latest") 2 false None) empty_world))
    !! py "notes.txt"
  = files empty_world !! py "notes.txt".
Proof.
  apply (run_leaves_other_files online (init (py "grok-2-latest") 2 false None)
           empty_world (py "notes.txt")).
  discriminate.
Defined.

(** X18. Whatever the providers do, a run with N iterations sends at
    most one search request and at most max(N,0)+1 chat requests, and writes
    the output file at most max(N,0)+1 times. *)
Theorem run_request_bounds
    (env : providers) (model : str) (N : Z) (tm : bool) (key : option str) (w : world) :
  exists t,
    snd (run env (init model N tm key) w)
    = {| files := replay t (files w); trace := trace w ++ t |}
    /\ count KSearch t <= 1
    /\ count KChat t <= Z.max 0 N + 1
    /\ count KWrite t <= Z.max 0 N + 1.
Proof.
  destruct (steps_run env (init model N tm key) w) as [t [E [_ K]]].
  exists t. split; [exact E|].
  cbn [test_mode iterations init] in K.
  assert (map kind_of t `prefix_of` run_kinds tm (Z.to_nat N)) as Hp.
  { destruct (fst (run env (init model N tm key) w)); [now rewrite K | exact K]. }
  pose proof (occurrences_prefix KSearch _ _ Hp) as Hs.
  pose proof (occurrences_prefix KChat _ _ Hp) as Hc.
  pose proof (occurrences_prefix KWrite _ _ Hp) as Hw.
  destruct (occurrences_run_kinds tm (Z.to_nat N)) as [_ [Ow [_ [Os Oc]]]].
  unfold count. rewrite Os in Hs. rewrite Ow in Hw. rewrite Oc in Hc.
  destruct tm; repeat split; lia.
Qed.

(** X19. When the providers answer and the replies can be encoded for
    the file and the terminal, the last three events of a run are the header
    line, the final draft printed and the final draft written:
    [generated_paper.txt] ends up holding the text shown as final version. *)
Theorem run_final_draft_printed_and_saved
    (env : providers) (model : str) (N : Z) (tm : bool) (key : option str) (w : world) :
  search_answers env ->
  (tm = false -> chat_answers env) ->
  (tm = false -> replies_encodable env) ->
  exists before d,
    run env (init model N tm key) w
    = (Ok tt,
       {| files := replay (before ++ [EvPrint final_header; EvPrint d; EvWrite file_name d])
                          (files w);
          trace := trace w ++ before
                   ++ [EvPrint final_header; EvPrint d; EvWrite file_name d] |})
    /\ files (snd (run env (init model N tm key) w)) !! file_name = Some d.
Proof.
  intros Hs Hc He. destruct (Hs default_query 5) as [results Es].
  destruct (runs_run_trace env (init model N tm key) results w Es
              (init_can_generate env model N tm key Hc)
              (init_can_write env model N tm key He))
    as [t [d [H [[g [d0 [loop [Et _]]]] [Hf _]]]]].
  exists ([EvSearch default_query 5] ++ g ++ loop), d.
  assert (t = ([EvSearch default_query 5] ++ g ++ loop)
              ++ [EvPrint final_header; EvPrint d; EvWrite file_name d]) as Et'
    by (rewrite Et; now rewrite <- !app_assoc).
  rewrite <- Et'. split; [exact H|]. rewrite H. exact Hf.
Qed.

Lemma run_final_draft_printed_and_saved_witness :
  exists before d,
    run online (init (py "grok-2-latest") 2 false None) empty_world
    = (Ok tt,
       {| files := replay (before ++ [EvPrint final_header; EvPrint d; EvWrite file_name d])
                          (files empty_world);
          trace := trace empty_world ++ before
                   ++ [EvPrint final_header; EvPrint d; EvWrite file_name d] |})
    /\ files (snd (run online (init (py "grok-2-latest") 2 false None) empty_world))
         !! file_name = Some d.
Proof.
  apply (run_final_draft_printed_and_saved online (py "grok-2-latest") 2 false None
           empty_world).
  - intros query max_results. eexists. reflexivity.
  - intros _ n model messages. eexists _, _. reflexivity.
  - intros _. exact online_replies_encodable.
Defined.

(** X20. A negative iteration count behaves as zero: the loop body is
    never entered, so the run is at most search, one generator call, two
    prints and one write of the first draft, which is never evaluated. *)
Theorem run_without_iterations
    (env : providers) (model : str) (N : Z) (tm : bool) (key : option str) (w : world) :
  N <= 0 ->
  run env (init model N tm key) w = run env (init model 0 tm key) w
  /\ exists t,
       snd (run env (init model N tm key) w)
       = {| files := replay t (files w); trace := trace w ++ t |}
       /\ map kind_of t `prefix_of` ([KSearch] ++ gen_kinds tm ++ [KPrint; KPrint; KWrite]).
Proof.
  intros HN. assert (Z.to_nat N = 0%nat) as E0 by lia. split.
  - unfold run, range. cbn [iterations init]. rewrite E0. reflexivity.
  - destruct (steps_run env (init model N tm key) w) as [t [E [_ K]]].
    exists t. split; [exact E|].
    cbn [test_mode iterations init] in K. rewrite E0 in K.
    destruct (fst (run env (init model N tm key) w)); [now rewrite K | exact K].
Qed.

Lemma run_without_iterations_witness :
  run online (init (py "grok-2-latest") (-2) false None) empty_world
  = run online (init (py "grok-2-latest") 0 false None) empty_world
  /\ exists t,
       snd (run online (init (py "grok-2-latest") (-2) false None) empty_world)
       = {| files := replay t (files empty_world); trace := trace empty_world ++ t |}
       /\ map kind_of t `prefix_of` ([KSearch] ++ gen_kinds false ++ [KPrint; KPrint; KWrite]).
Proof.
  apply (run_without_iterations online (py "grok-2-latest") (-2) false None empty_world).
  lia.
Defined.

(** X21. In test mode, once the search is answered, the whole run is
    fixed by the search results and the iteration count, whatever the chat
    provider, the model name and the key: every iteration writes the dummy
    paper, prints the same feedback on it, which is a success with 34 words,
    and goes on to the next iteration all the same. *)
Theorem run_test_mode_events
    (env : providers) (model : str) (N : Z) (key : option str) (w : world)
    (results : list arxiv_result) :
  arxiv_results env default_query 5 = Ok results ->
  run env (init model N true key) w
  = (Ok tt,
     {| files := replay (test_run_events results (Z.to_nat N)) (files w);
        trace := trace w ++ test_run_events results (Z.to_nat N) |})
  /\ evaluate_paper dummy_paper 500 = py "Success! Paper length is 34 words.".
Proof.
  intros Es. split; [|vm_compute; reflexivity].
  now apply (runs_run_test env (init model N true key) results w).
Qed.

Lemma run_test_mode_events_witness :
  run (search_only [one_paper]) (init (py "grok-2-latest") 3 true None) empty_world
  = (Ok tt,
     {| files := replay (test_run_events [one_paper] (Z.to_nat 3)) (files empty_world);
        trace := trace empty_world ++ test_run_events [one_paper] (Z.to_nat 3) |})
  /\ evaluate_paper dummy_paper 500 = py "Success! Paper length is 34 words.".
Proof.
  apply (run_test_mode_events (search_only [one_paper]) (py "grok-2-latest") 3 None
           empty_world [one_paper]).
  reflexivity.
Defined.

(** X22. Outside test mode, when the search is answered and the chat
    provider raises on the first request, the run stops with that error
    after the search, the generator call and the request: nothing is printed
    and no file is written. *)
Theorem run_first_generation_failure
    (env : providers) (name : str) (N : Z) (key : option str) (w : world)
    (results : list arxiv_result) (e : error) :
  arxiv_results env default_query 5 = Ok results ->
  chat_create env (chat_requests (trace w)) name
    (chat_messages (base_prompt (map summary_of results))) = Raise e ->
  run env (init name N false key) w
  = (Raise e,
     {| files := files w;
        trace := trace w
                 ++ [ EvSearch default_query 5;
                      EvGenerate (base_prompt (map summary_of results));
                      EvChat name (chat_messages (base_prompt (map summary_of results))) ] |}).
Proof.
  intros Es Ec. unfold run, fetch_latest_papers, arxiv_client_results.
  unfold bind at 1 2 3. unfold emit, lift, ret. cbn [files trace]. rewrite Es.
  unfold bind at 1.
  rewrite (generate_paper_live_eq env (init name N false key)
             {| api_key := key; base_url := py "https://api.x.ai/v1" |})
    by reflexivity.
  cbn [files trace model init]. rewrite chat_requests_search, Ec.
  now rewrite <- app_assoc.
Qed.

Lemma run_first_generation_failure_witness :
  run (search_only [one_paper]) (init (py "grok-2-latest") 2 false None) empty_world
  = (Raise (ProviderError (py "connection refused")),
     {| files := files empty_world;
        trace := trace empty_world
                 ++ [ EvSearch default_query 5;
                      EvGenerate (base_prompt (map summary_of [one_paper]));
                      EvChat (py "grok-2-latest")
                        (chat_messages (base_prompt (map summary_of [one_paper]))) ] |}).
Proof.
  apply (run_first_generation_failure (search_only [one_paper]) (py "grok-2-latest") 2 None
           empty_world [one_paper] (ProviderError (py "connection refused")));
    reflexivity.
Defined.

(** X23. A generator call never changes a file, and an iteration of the
    loop changes the output file only. When the draft can be encoded,
    [generated_paper.txt] holds it after the iteration, whether the
    refinement returns or raises. When the draft cannot be encoded, the
    iteration raises [UnicodeEncodeError] at the write, having emptied the
    file: the draft is neither evaluated nor printed. *)
Theorem iteration_saves_its_draft
    (env : providers) (self : agent) (i : nat) (paper_text prompt : str) (w : world) :
  files (snd (generate_paper env self prompt w)) = files w
  /\ if encodable (file_codec env) paper_text
     then files (snd (iteration env self i paper_text w))
          = <[file_name := paper_text]> (files w)
     else iteration env self i paper_text w
          = (Raise UnicodeEncodeError,
             {| files := <[file_name := []]> (files w);
                trace := trace w ++ [EvWrite file_name []] |}).
Proof.
  split; [apply generate_paper_files|].
  unfold iteration, refine_paper.
  destruct (encodable (file_codec env) paper_text) eqn:Ef.
  - unfold bind at 1. unfold write_file. rewrite Ef.
    unfold bind at 1. unfold print.
    rewrite (ascii_encodable _ _ (feedback_line_ascii i paper_text 500)).
    unfold emit. cbn [files trace]. now rewrite generate_paper_files.
  - unfold bind at 1. unfold write_file. now rewrite Ef.
Qed.
